(** * FinanzQuest: the privileged stored procedures of [dbinit/admin.sql]

    A shallow embedding of the role gate, the role API, the budget and
    reward mutations and the overview queries of [src/dbinit/admin.sql].
    Tables are lists of rows, a statement is a function on the database
    state that either raises an SQL error (the enclosing transaction aborts
    and nothing is written) or returns the new state.  The caller identity
    that the SQL reads from the session ([current_user], [auth.uid()]) is
    an explicit argument. *)

From stdpp Require Import base decidable option list numbers strings sorting gmap.
From Stdlib Require Import QArith Qcanon.

Open Scope Z_scope.

(** ** Column types *)

(** [UUID]: an opaque identifier compared for equality and ordered. *)
Abbreviation uuid := N (only parsing).
(** [TIMESTAMPTZ]: microseconds since the epoch. *)
Abbreviation timestamptz := Z (only parsing).

(** [CREATE TYPE users.special_role AS ENUM ('admin', 'teacher')] *)
Inductive special_role := admin | teacher.

#[global] Instance special_role_eq_dec : EqDecision special_role.
Proof. solve_decision. Defined.

(** ** Tables *)

(** [users.special_roles], primary key [(user_id, user_role)]. *)
Record special_roles_row := {
  sr_user_id : uuid;
  user_role : special_role;
  granted_at : timestamptz;
}.

(** [auth.users] belongs to the authentication service; these are the
    columns [admin.sql] reads or writes.  [raw_user_meta_data] is a JSON
    object, here with text values. *)
Record auth_users_row := {
  au_id : uuid;
  email : string;
  au_created_at : timestamptz;
  raw_user_meta_data : gmap string string;
  banned_until : option timestamptz;
  is_super_admin : bool;
}.

(** [depots.depots]: [id], [cash], [cash_start] and the member array
    [users] are the columns [admin.sql] uses. *)
Record depots_row := {
  d_id : Z;
  cash : Z;
  cash_start : Z;
  d_users : list uuid;
}.

(** [depots.positions]: [admin.sql] uses [id] and [depot_id]. *)
Record positions_row := {
  p_id : Z;
  p_depot_id : Z;
}.

(** Modelled from the spec: the column layout of [depots.transactions] is
    not part of [admin.sql], which only uses [id] and [depot_id]; the
    [cash_delta] of a ledger entry follows the spec's Transaction entity. *)
Record transactions_row := {
  t_id : Z;
  t_depot_id : Z;
  cash_delta : Z;
}.

(** Modelled from the spec: the savings-plan frequencies of the
    normalization table. *)
Inductive frequency := weekly | biweekly | monthly | quarterly | yearly.

(** [depots.savings_plans]: [admin.sql] uses [depot_id], [worth] and
    [period]; the table is declared elsewhere, its columns are taken as
    [NOT NULL] and [worth] as an exact number. *)
Record savings_plans_row := {
  sp_id : Z;
  sp_depot_id : Z;
  worth : Qc;
  period : frequency;
}.

(** [depots.savings_plans_budget], primary key [depot_id]. *)
Record savings_plans_budget_row := {
  b_depot_id : Z;
  budget : Z;
  last_changed : timestamptz;
}.

#[global] Instance special_roles_row_eq_dec : EqDecision special_roles_row.
Proof. solve_decision. Defined.
#[global] Instance auth_users_row_eq_dec : EqDecision auth_users_row.
Proof. solve_decision. Defined.
#[global] Instance depots_row_eq_dec : EqDecision depots_row.
Proof. solve_decision. Defined.
#[global] Instance positions_row_eq_dec : EqDecision positions_row.
Proof. solve_decision. Defined.
#[global] Instance transactions_row_eq_dec : EqDecision transactions_row.
Proof. solve_decision. Defined.
#[global] Instance savings_plans_budget_row_eq_dec :
  EqDecision savings_plans_budget_row.
Proof. solve_decision. Defined.

(** The database state.  [owner] is the role that ran [admin.sql] and so
    owns the functions, tables and views it creates. *)
Record db := {
  owner : string;
  auth_users : list auth_users_row;
  special_roles : list special_roles_row;
  depots : list depots_row;
  positions : list positions_row;
  transactions : list transactions_row;
  savings_plans : list savings_plans_row;
  savings_plans_budget : list savings_plans_budget_row;
}.

Definition set_auth_users (f : list auth_users_row → list auth_users_row)
    (st : db) : db :=
  {| owner := owner st;
     auth_users := f (auth_users st);
     special_roles := special_roles st;
     depots := depots st;
     positions := positions st;
     transactions := transactions st;
     savings_plans := savings_plans st;
     savings_plans_budget := savings_plans_budget st |}.

Definition set_special_roles
    (f : list special_roles_row → list special_roles_row) (st : db) : db :=
  {| owner := owner st;
     auth_users := auth_users st;
     special_roles := f (special_roles st);
     depots := depots st;
     positions := positions st;
     transactions := transactions st;
     savings_plans := savings_plans st;
     savings_plans_budget := savings_plans_budget st |}.

Definition set_depots (f : list depots_row → list depots_row) (st : db) : db :=
  {| owner := owner st;
     auth_users := auth_users st;
     special_roles := special_roles st;
     depots := f (depots st);
     positions := positions st;
     transactions := transactions st;
     savings_plans := savings_plans st;
     savings_plans_budget := savings_plans_budget st |}.

Definition set_savings_plans_budget
    (f : list savings_plans_budget_row → list savings_plans_budget_row)
    (st : db) : db :=
  {| owner := owner st;
     auth_users := auth_users st;
     special_roles := special_roles st;
     depots := depots st;
     positions := positions st;
     transactions := transactions st;
     savings_plans := savings_plans st;
     savings_plans_budget := f (savings_plans_budget st) |}.

(** ** Sessions and errors *)

(** The session a request runs in: the database role it connected as
    ([session_user]) and the authenticated user id ([auth.uid()], [NULL]
    when the request carries no identity). *)
Record session := {
  session_user : string;
  auth_uid : option uuid;
}.

(** How a function was declared. *)
Inductive security := Invoker | Definer.

(** [current_user] names the role whose privileges apply where it is
    evaluated: the session's role in an ordinary function, and the owner
    of the function in the body of a [SECURITY DEFINER] function. *)
Definition current_user (sec : security) (c : session) (st : db) : string :=
  match sec with
  | Invoker => session_user c
  | Definer => owner st
  end.

(** The errors a statement of [admin.sql] can raise.  [Unauthorized] is
    the [RAISE EXCEPTION 'Unauthorized: ...' USING ERRCODE = '42501'] of
    the guards; the others are raised by the database itself. *)
Inductive sql_error :=
  | Unauthorized
  | RlsViolation
  | PermissionDenied
  | UniqueViolation
  | ForeignKeyViolation
  | NumericValueOutOfRange.

Inductive result (A : Type) :=
  | Ok (a : A)
  | Err (e : sql_error).
Arguments Ok {A} a.
Arguments Err {A} e.

#[global] Instance result_fmap : FMap result := λ A B f r,
  match r with Ok a => Ok (f a) | Err e => Err e end.
#[global] Instance result_ret : MRet result := λ A a, Ok a.
#[global] Instance result_bind : MBind result := λ A B f r,
  match r with Ok a => f a | Err e => Err e end.

(** The state after a statement: an error aborts the transaction, so the
    state before it stays. *)
Definition commit (r : result db) (st : db) : db :=
  match r with Ok st' => st' | Err _ => st end.

(** ** SQL statements on a table *)

(** [UPDATE t SET ... WHERE cond]. *)
Definition sql_update {A} (cond : A → Prop) `{!∀ a, Decision (cond a)}
    (set : A → A) (t : list A) : list A :=
  (λ r, if decide (cond r) then set r else r) <$> t.

(** [DELETE FROM t WHERE cond]. *)
Definition sql_delete {A} (cond : A → Prop) `{!∀ a, Decision (cond a)}
    (t : list A) : list A :=
  filter (λ r, ¬ cond r) t.

(** [EXISTS (SELECT 1 FROM t WHERE cond)]. *)
Definition sql_exists {A} (cond : A → Prop) `{!∀ a, Decision (cond a)}
    (t : list A) : bool :=
  bool_decide (Exists cond t).

(** ** The role gate *)

(** [users.has_role(required_role)]. *)
Definition has_role (c : session) (st : db) (required_role : special_role)
    : bool :=
  match auth_uid c with
  | None => false
  | Some uid =>
      sql_exists (λ r, sr_user_id r = uid ∧ user_role r = required_role)
        (special_roles st)
  end.

(** [users.has_any_role(VARIADIC required_roles)]. *)
Definition has_any_role (c : session) (st : db)
    (required_roles : list special_role) : bool :=
  match auth_uid c with
  | None => false
  | Some uid =>
      sql_exists (λ r, sr_user_id r = uid ∧ user_role r ∈ required_roles)
        (special_roles st)
  end.

(** [current_user = 'postgres'] *)
Definition is_postgres (sec : security) (c : session) (st : db) : bool :=
  bool_decide (current_user sec c st = "postgres").

(** ** The role API *)

(** [INSERT INTO users.special_roles (user_id, user_role) VALUES (...)]:
    the primary key [(user_id, user_role)] and the foreign key to
    [auth.users(id)] are checked; [granted_at] defaults to [NOW()]. *)
Definition insert_special_role (now : timestamptz) (p_user_id : uuid)
    (p_user_role : special_role) (st : db) : result db :=
  if sql_exists (λ r, sr_user_id r = p_user_id ∧ user_role r = p_user_role)
       (special_roles st)
  then Err UniqueViolation
  else if sql_exists (λ u, au_id u = p_user_id) (auth_users st)
  then Ok (set_special_roles
             (λ t, t ++ [ {| sr_user_id := p_user_id;
                             user_role := p_user_role;
                             granted_at := now |} ]) st)
  else Err ForeignKeyViolation.

Definition set_is_super_admin (b : bool) (u : auth_users_row)
    : auth_users_row :=
  {| au_id := au_id u;
     email := email u;
     au_created_at := au_created_at u;
     raw_user_meta_data := raw_user_meta_data u;
     banned_until := banned_until u;
     is_super_admin := b |}.

(** [users.grant_teacher(p_user_id)], [SECURITY DEFINER]. *)
Definition grant_teacher (c : session) (now : timestamptz) (p_user_id : uuid)
    (st : db) : result db :=
  if negb (has_any_role c st [admin; teacher] || is_postgres Definer c st)
  then Err Unauthorized
  else
    st1 ← insert_special_role now p_user_id teacher st;
    (* UPDATE auth.users SET is_super_admin = true; *)
    mret (set_auth_users
            (sql_update (λ _, True) (set_is_super_admin true)) st1).

(** [users.revoke_teacher(p_user_id)], [SECURITY DEFINER]. *)
Definition revoke_teacher (c : session) (p_user_id : uuid) (st : db)
    : result db :=
  if negb (has_any_role c st [admin; teacher] || is_postgres Definer c st)
  then Err Unauthorized
  else
    let st1 :=
      set_special_roles
        (sql_delete (λ r, sr_user_id r = p_user_id ∧ user_role r = teacher))
        st in
    (* UPDATE auth.users SET is_super_admin = false WHERE id = p_user_id; *)
    mret (set_auth_users
            (sql_update (λ u, au_id u = p_user_id) (set_is_super_admin false))
            st1).

(** ** Budget and reward mutations *)

(** Row-level security does not apply to the owner of a table nor to the
    bootstrap role [postgres] (a superuser, or a role with [BYPASSRLS]). *)
Definition bypasses_rls (c : session) (st : db) : bool :=
  bool_decide (session_user c = owner st)
  || bool_decide (session_user c = "postgres").

(** [depots.change_budget(p_depot_id, p_budget)].  The function has no
    guard of its own and runs with the privileges of the caller, so the
    statement is subject to the grants and the row-level security policies
    of [depots.savings_plans_budget]:
    - [GRANT SELECT, INSERT, UPDATE ... TO authenticated];
    - ["Teachers can grant budget"]: [FOR INSERT WITH CHECK
      (users.has_role('teacher'))], checked on the proposed row before the
      conflict is looked for;
    - ["Teachers can update all budgets"] and ["Teachers can read all
      budgets"]: [USING (users.has_role('teacher'))], for the
      [ON CONFLICT ... DO UPDATE] arm.
    The foreign key to [depots.depots(id)] is checked on insertion. *)
Definition change_budget (c : session) (now : timestamptz)
    (p_depot_id p_budget : Z) (st : db) : result db :=
  if negb (bypasses_rls c st || bool_decide (session_user c = "authenticated"))
  then Err PermissionDenied
  else if negb (bypasses_rls c st || has_role c st teacher)
  then Err RlsViolation
  else if sql_exists (λ b, b_depot_id b = p_depot_id) (savings_plans_budget st)
  then
    (* ON CONFLICT (depot_id) DO UPDATE SET budget = EXCLUDED.budget,
       last_changed = EXCLUDED.last_changed *)
    Ok (set_savings_plans_budget
          (sql_update (λ b, b_depot_id b = p_depot_id)
             (λ b, {| b_depot_id := b_depot_id b;
                      budget := p_budget;
                      last_changed := now |})) st)
  else if sql_exists (λ d, d_id d = p_depot_id) (depots st)
  then
    Ok (set_savings_plans_budget
          (λ t, t ++ [ {| b_depot_id := p_depot_id;
                          budget := p_budget;
                          last_changed := now |} ]) st)
  else Err ForeignKeyViolation.

(** The range of a [BIGINT] column. *)
Definition in_bigint (z : Z) : Prop := - 2 ^ 63 ≤ z < 2 ^ 63.

#[global] Instance in_bigint_dec z : Decision (in_bigint z).
Proof. unfold in_bigint. apply _. Defined.

Definition add_cash (p_amount : Z) (d : depots_row) : depots_row :=
  {| d_id := d_id d;
     cash := cash d + p_amount;
     cash_start := cash_start d;
     d_users := d_users d |}.

(** The range of an [INT] parameter. *)
Definition in_int (z : Z) : Prop := - 2 ^ 31 ≤ z < 2 ^ 31.

#[global] Instance in_int_dec z : Decision (in_int z).
Proof. unfold in_int. apply _. Defined.

(** [depots.grant_reward(p_depot_id, p_amount)].  [p_amount] is an [INT]:
    an amount outside its range is refused when the argument is
    converted, before the body runs.  Not [SECURITY DEFINER]:
    a caller that passes the guard holds the teacher role, for which
    ["Teachers can view all Depots"] and ["Teachers can edit all Depots"]
    let every row through, or is [postgres]; the [UPDATE] therefore reaches every
    row with the given id.  [d.cash + p_amount] is a [BIGINT] sum and
    raises when it leaves the range. *)
Definition grant_reward (c : session) (p_depot_id p_amount : Z) (st : db)
    : result db :=
  if negb (bool_decide (in_int p_amount))
  then Err NumericValueOutOfRange
  else if negb (has_any_role c st [teacher] || is_postgres Invoker c st)
  then Err Unauthorized
  else if sql_exists
            (λ d, d_id d = p_depot_id ∧ ¬ in_bigint (cash d + p_amount))
            (depots st)
  then Err NumericValueOutOfRange
  else
    Ok (set_depots
          (sql_update (λ d, d_id d = p_depot_id) (add_cash p_amount)) st).

(** ** Relational operators of the queries *)

(** Join conditions are written as binary predicates; their decision
    procedures are found after beta reduction. *)
#[global] Hint Extern 0 (Decision _) =>
  progress cbv beta : typeclass_instances.

(** [l LEFT JOIN r ON on]: every left row is kept; one without a partner
    is padded with [NULL]s. *)
Definition left_join {A B} (on : A → B → Prop)
    `{!∀ a b, Decision (on a b)} (l : list A) (r : list B)
    : list (A * option B) :=
  a ← l;
  match filter (on a) r with
  | [] => [(a, None)]
  | bs => (λ b, (a, Some b)) <$> bs
  end.

(** [l LEFT JOIN LATERAL (SELECT aggregates ...) x ON true]: an aggregate
    without [GROUP BY] yields exactly one row for every left row. *)
Definition left_join_lateral {A B} (sub : A → B) (l : list A)
    : list (A * B) :=
  (λ a, (a, sub a)) <$> l.

(** [GROUP BY key]: the groups, each with the rows that fall in it. *)
Definition group_by {R K} `{EqDecision K} (key : R → K) (rows : list R)
    : list (K * list R) :=
  (λ k, (k, filter (λ r, key r = k) rows)) <$> remove_dups (key <$> rows).

(** [COUNT(DISTINCT x)]: the number of distinct non-[NULL] values. *)
Definition count_distinct (xs : list (option Z)) : Z :=
  Z.of_nat (length (remove_dups (omap id xs))).

(** [array_agg(x)]: [NULL] over no rows. *)
Definition array_agg {A} (xs : list A) : option (list A) :=
  match xs with
  | [] => None
  | _ => Some xs
  end.

(** [SUM(x)] over a numeric column: [NULL]s are skipped, and the sum of
    no non-[NULL] value is [NULL]. *)
Definition sql_sum (xs : list (option Qc)) : option Qc :=
  match omap id xs with
  | [] => None
  | x :: xs' => Some (foldl Qcplus x xs')
  end.

(** ** Overview queries *)

(** [users.get_all_profiles()] and the view [users.profile] over it;
    [SECURITY DEFINER], so every row of [auth.users] is read. *)
Record profile_row := {
  pr_user_id : uuid;
  pr_name : option string;
  pr_created_at : timestamptz;
}.

Definition get_all_profiles (st : db) : list profile_row :=
  (λ au, {| pr_user_id := au_id au;
            pr_name := raw_user_meta_data au !! "name";
            pr_created_at := au_created_at au |}) <$> auth_users st.

Definition profile (st : db) : list profile_row := get_all_profiles st.

(** The row type of [users.get_admin_overview()]. *)
Module admin_overview.
Record row := {
  id : uuid;
  email : string;
  created_at : timestamptz;
  meta_data : gmap string string;
  user_name : option string;
  banned_until : option timestamptz;
  user_roles : option (list special_role);
  role_granted_at : option (list timestamptz);
  depot_count : Z;
  position_count : Z;
  transaction_count : Z;
}.
End admin_overview.

(** [ORDER BY us.granted_at] *)
Definition by_granted_at (a b : special_roles_row) : Prop :=
  granted_at a ≤ granted_at b.

#[global] Instance by_granted_at_dec : RelDecision by_granted_at.
Proof. intros a b. unfold by_granted_at. apply _. Defined.

(** The lateral subquery [roles] of [get_admin_overview]:
    [array_agg(... ORDER BY us.granted_at)] over the roles of [au]. *)
Definition roles (st : db) (au : auth_users_row)
    : option (list special_role) * option (list timestamptz) :=
  let us :=
    merge_sort by_granted_at
      (filter (λ us, sr_user_id us = au_id au) (special_roles st)) in
  (array_agg (user_role <$> us), array_agg (granted_at <$> us)).

(** A row of the [FROM] clause of [get_admin_overview]:
    [au], [roles], [d], [p], [t]; the last three are [NULL]-padded. *)
Abbreviation admin_from_row :=
  (auth_users_row
   * (option (list special_role) * option (list timestamptz))
   * option depots_row * option positions_row * option transactions_row)%type
  (only parsing).

Definition admin_from (st : db) : list admin_from_row :=
  let au_roles := left_join_lateral (roles st) (auth_users st) in
  (* LEFT JOIN depots.depots AS d ON au.id = ANY(d.users) *)
  let au_d :=
    left_join (λ x d, au_id x.1 ∈ d_users d) au_roles (depots st) in
  (* LEFT JOIN depots.positions AS p ON d.id = p.depot_id *)
  let au_d_p :=
    left_join (λ x p, d_id <$> x.2 = Some (p_depot_id p)) au_d
      (positions st) in
  (* LEFT JOIN depots.transactions AS t ON d.id = t.depot_id *)
  left_join (λ x t, d_id <$> x.1.2 = Some (t_depot_id t)) au_d_p
    (transactions st).

(** The columns of a row of the [FROM] clause. *)
Definition af_au (x : admin_from_row) : auth_users_row := x.1.1.1.1.
Definition af_roles (x : admin_from_row) := x.1.1.1.2.
Definition af_d (x : admin_from_row) : option depots_row := x.1.1.2.
Definition af_p (x : admin_from_row) : option positions_row := x.1.2.
Definition af_t (x : admin_from_row) : option transactions_row := x.2.

(** [GROUP BY au.id, au.email, au.created_at, au.raw_user_meta_data,
    roles.user_roles, roles.role_granted_at] *)
Abbreviation admin_key :=
  (uuid * string * timestamptz * gmap string string
   * option (list special_role) * option (list timestamptz))%type
  (only parsing).

Definition admin_group_key (x : admin_from_row) : admin_key :=
  (au_id (af_au x), email (af_au x), au_created_at (af_au x),
   raw_user_meta_data (af_au x), (af_roles x).1, (af_roles x).2).

(** The [SELECT] list over one group; [au.banned_until] is not a grouping
    column and is read off a row of the group. *)
Definition admin_select (g : admin_key * list admin_from_row)
    : option admin_overview.row :=
  match head g.2 with
  | None => None
  | Some x =>
      Some {| admin_overview.id := g.1.1.1.1.1.1;
              admin_overview.email := g.1.1.1.1.1.2;
              admin_overview.created_at := g.1.1.1.1.2;
              admin_overview.meta_data := g.1.1.1.2;
              admin_overview.user_name := g.1.1.1.2 !! "name";
              admin_overview.banned_until := banned_until (af_au x);
              admin_overview.user_roles := g.1.1.2;
              admin_overview.role_granted_at := g.1.2;
              admin_overview.depot_count :=
                count_distinct ((λ y, d_id <$> af_d y) <$> g.2);
              admin_overview.position_count :=
                count_distinct ((λ y, p_id <$> af_p y) <$> g.2);
              admin_overview.transaction_count :=
                count_distinct ((λ y, t_id <$> af_t y) <$> g.2) |}
  end.

(** [users.get_admin_overview()], [SECURITY DEFINER]. *)
Definition get_admin_overview (c : session) (st : db)
    : result (list admin_overview.row) :=
  if negb (has_any_role c st [admin; teacher] || is_postgres Definer c st)
  then Err Unauthorized
  else Ok (omap admin_select (group_by admin_group_key (admin_from st))).

(** The row type of [depots.get_depot_overview()]. *)
Module depot_overview.
Record row := {
  id : Z;
  cash : Z;
  cash_start : Z;
  transaction_count : Z;
  position_count : Z;
  user_names : option (list (option string));
  user_ids : option (list uuid);
  all_ids : list uuid;
  monthly_budget : option Z;
}.
End depot_overview.

(** [ORDER BY up.user_id] *)
Definition by_user_id (a b : profile_row) : Prop :=
  (pr_user_id a ≤ pr_user_id b)%N.

#[global] Instance by_user_id_dec : RelDecision by_user_id.
Proof. intros a b. unfold by_user_id. apply _. Defined.

(** The lateral subquery [u] of [get_depot_overview]:
    [array_agg(... ORDER BY up.user_id)] over the profiles of the members
    of [d]. *)
Definition members (st : db) (d : depots_row)
    : option (list (option string)) * option (list uuid) :=
  let ups :=
    merge_sort by_user_id
      (filter (λ up, pr_user_id up ∈ d_users d) (profile st)) in
  (array_agg (pr_name <$> ups), array_agg (pr_user_id <$> ups)).

(** A row of the [FROM] clause of [get_depot_overview]:
    [d], [dt], [dp], [u], [dsb]. *)
Abbreviation depot_from_row :=
  (depots_row * option transactions_row * option positions_row
   * (option (list (option string)) * option (list uuid))
   * option savings_plans_budget_row)%type
  (only parsing).

Definition depot_from (st : db) : list depot_from_row :=
  (* LEFT JOIN depots.transactions AS dt ON dt.depot_id = d.id *)
  let d_dt :=
    left_join (λ d dt, t_depot_id dt = d_id d) (depots st)
      (transactions st) in
  (* LEFT JOIN depots.positions AS dp ON dp.depot_id = d.id *)
  let d_dt_dp :=
    left_join (λ x dp, p_depot_id dp = d_id x.1) d_dt (positions st) in
  let d_dt_dp_u := left_join_lateral (λ x, members st x.1.1) d_dt_dp in
  (* LEFT JOIN depots.savings_plans_budget AS dsb ON dsb.depot_id = d.id *)
  left_join (λ x dsb, b_depot_id dsb = d_id x.1.1.1) d_dt_dp_u
    (savings_plans_budget st).

(** The columns of a row of the [FROM] clause. *)
Definition df_d (x : depot_from_row) : depots_row := x.1.1.1.1.
Definition df_dt (x : depot_from_row) : option transactions_row := x.1.1.1.2.
Definition df_dp (x : depot_from_row) : option positions_row := x.1.1.2.
Definition df_u (x : depot_from_row) := x.1.2.
Definition df_dsb (x : depot_from_row) : option savings_plans_budget_row :=
  x.2.

(** [GROUP BY d.id, u.user_names, u.user_ids, dsb.budget] *)
Abbreviation depot_key :=
  (Z * option (list (option string)) * option (list uuid) * option Z)%type
  (only parsing).

Definition depot_group_key (x : depot_from_row) : depot_key :=
  (d_id (df_d x), (df_u x).1, (df_u x).2, budget <$> df_dsb x).

(** The [SELECT] list over one group; [d.cash], [d.cash_start] and
    [d.users] depend on the grouping column [d.id] and are read off a row
    of the group. *)
Definition depot_select (g : depot_key * list depot_from_row)
    : option depot_overview.row :=
  match head g.2 with
  | None => None
  | Some x =>
      Some {| depot_overview.id := g.1.1.1.1;
              depot_overview.cash := cash (df_d x);
              depot_overview.cash_start := cash_start (df_d x);
              depot_overview.transaction_count :=
                count_distinct ((λ y, t_id <$> df_dt y) <$> g.2);
              depot_overview.position_count :=
                count_distinct ((λ y, p_id <$> df_dp y) <$> g.2);
              depot_overview.user_names := g.1.1.1.2;
              depot_overview.user_ids := g.1.1.2;
              depot_overview.all_ids := d_users (df_d x);
              depot_overview.monthly_budget := g.1.2 |}
  end.

(** [depots.get_depot_overview()], [SECURITY DEFINER]. *)
Definition get_depot_overview (c : session) (st : db)
    : result (list depot_overview.row) :=
  if negb (has_any_role c st [admin; teacher] || is_postgres Definer c st)
  then Err Unauthorized
  else Ok (omap depot_select (group_by depot_group_key (depot_from st))).

(** ** The savings-plan budget overview *)

(** Modelled from the spec: [depots.sp_to_per_month] is not part of
    [admin.sql]; its values are the normalization factors of the spec,
    weekly 4.345, biweekly 2.17, monthly 1, quarterly 1/3, yearly 1/12, as
    exact rationals. *)
Definition sp_to_per_month (f : frequency) : Qc :=
  match f with
  | weekly => Q2Qc (4345 # 1000)
  | biweekly => Q2Qc (217 # 100)
  | monthly => Q2Qc 1
  | quarterly => Q2Qc (1 # 3)
  | yearly => Q2Qc (1 # 12)
  end.

(** The row type of the view [depots.savings_plans_budget_overview]. *)
Module budget_overview.
Record row := {
  budget : Z;
  depot_id : Z;
  last_changed : timestamptz;
  monthly_expenses : option Qc;
  remaining_budget : option Qc;
}.
End budget_overview.

(** [depots.savings_plans_budget AS dsb LEFT JOIN depots.savings_plans AS
    dsp ON dsp.depot_id = dsb.depot_id] *)
Definition budget_from (st : db)
    : list (savings_plans_budget_row * option savings_plans_row) :=
  left_join (λ dsb dsp, sp_depot_id dsp = b_depot_id dsb)
    (savings_plans_budget st) (savings_plans st).

(** [dsp.worth * depots.sp_to_per_month(dsp.period)], [NULL] on a padded
    row. *)
Definition per_month
    (x : savings_plans_budget_row * option savings_plans_row) : option Qc :=
  (λ dsp, (worth dsp * sp_to_per_month (period dsp))%Qc) <$> x.2.

(** The [SELECT] list over one group of
    [GROUP BY dsb.budget, dsb.depot_id, dsb.last_changed]. *)
Definition budget_select
    (g : (Z * Z * timestamptz)
         * list (savings_plans_budget_row * option savings_plans_row))
    : budget_overview.row :=
  let expenses := sql_sum (per_month <$> g.2) in
  {| budget_overview.budget := g.1.1.1;
     budget_overview.depot_id := g.1.1.2;
     budget_overview.last_changed := g.1.2;
     budget_overview.monthly_expenses := expenses;
     budget_overview.remaining_budget :=
       (λ s, (Q2Qc (inject_Z g.1.1.1) - s)%Qc) <$> expenses |}.

(** The view [depots.savings_plans_budget_overview]. *)
Definition savings_plans_budget_overview (st : db)
    : list budget_overview.row :=
  budget_select
    <$> group_by (λ x, (budget x.1, b_depot_id x.1, last_changed x.1))
          (budget_from st).

(** The sum, over the savings plans of a depot, of worth times the
    per-month factor of the frequency of the plan. *)
Definition normalized_monthly_worth (st : db) (depot_id : Z) : Qc :=
  foldr Qcplus (Q2Qc 0)
    ((λ p, (worth p * sp_to_per_month (period p))%Qc)
       <$> filter (λ p, sp_depot_id p = depot_id) (savings_plans st)).

(** ** What the overview counts are counts of *)

(** The depots a user belongs to, and the positions and transactions of
    those depots. *)
Definition depots_of (st : db) (u : uuid) : list depots_row :=
  filter (λ d, u ∈ d_users d) (depots st).

Definition positions_of (st : db) (u : uuid) : list positions_row :=
  filter (λ p, Exists (λ d, d_id d = p_depot_id p) (depots_of st u))
    (positions st).

Definition transactions_of (st : db) (u : uuid) : list transactions_row :=
  filter (λ t, Exists (λ d, d_id d = t_depot_id t) (depots_of st u))
    (transactions st).

(** The positions and the transactions of one depot. *)
Definition positions_in (st : db) (depot_id : Z) : list positions_row :=
  filter (λ p, p_depot_id p = depot_id) (positions st).

Definition transactions_in (st : db) (depot_id : Z)
    : list transactions_row :=
  filter (λ t, t_depot_id t = depot_id) (transactions st).

(** The counts of a row of the admin overview are the numbers of those
    rows. *)
Definition admin_counts_exact (st : db) (row : admin_overview.row) : Prop :=
  admin_overview.depot_count row
  = Z.of_nat (length (depots_of st (admin_overview.id row)))
  ∧ admin_overview.position_count row
    = Z.of_nat (length (positions_of st (admin_overview.id row)))
  ∧ admin_overview.transaction_count row
    = Z.of_nat (length (transactions_of st (admin_overview.id row))).

(** The counts of a row of the depot overview are the numbers of those
    rows. *)
Definition depot_counts_exact (st : db) (row : depot_overview.row) : Prop :=
  depot_overview.transaction_count row
  = Z.of_nat (length (transactions_in st (depot_overview.id row)))
  ∧ depot_overview.position_count row
    = Z.of_nat (length (positions_in st (depot_overview.id row))).

(** ** Sequences of calls *)

(** The mutations of [admin.sql] a client can call, each with the session
    it is called in. *)
Inductive call :=
  | GrantTeacher (c : session) (now : timestamptz) (p_user_id : uuid)
  | RevokeTeacher (c : session) (p_user_id : uuid)
  | ChangeBudget (c : session) (now : timestamptz) (p_depot_id p_budget : Z)
  | GrantReward (c : session) (p_depot_id p_amount : Z).

Definition exec (k : call) (st : db) : result db :=
  match k with
  | GrantTeacher c now u => grant_teacher c now u st
  | RevokeTeacher c u => revoke_teacher c u st
  | ChangeBudget c now d b => change_budget c now d b st
  | GrantReward c d a => grant_reward c d a st
  end.

(** Every call is its own transaction: a failing call leaves the state. *)
Definition run (ks : list call) (st : db) : db :=
  foldl (λ s k, commit (exec k s) s) st ks.

(** The sum of the cash deltas of the ledger entries of a depot. *)
Definition ledger_sum (st : db) (depot_id : Z) : Z :=
  foldr Z.add 0
    (cash_delta <$> filter (λ t, t_depot_id t = depot_id) (transactions st)).

(** The rewards a sequence of calls has granted to a depot: the amounts of
    the calls of [grant_reward] for it that succeeded. *)
Fixpoint rewards_granted (ks : list call) (st : db) (depot_id : Z) : Z :=
  match ks with
  | [] => 0
  | k :: ks' =>
      match k, exec k st with
      | GrantReward _ d a, Ok _ => if decide (d = depot_id) then a else 0
      | _, _ => 0
      end + rewards_granted ks' (commit (exec k st) st) depot_id
  end.

(** ** A small database *)

(** A class with an administrator (user 1), two students (users 2 and 3)
    and a teacher (user 4).  Depot 1 is shared by both students and has a
    budget of 250 with one monthly savings plan of worth 100; depot 2
    belongs to user 2 and has a budget but no savings plan. *)
Definition pupil (i : uuid) (name : string) : auth_users_row :=
  {| au_id := i;
     email := name;
     au_created_at := 0;
     raw_user_meta_data := {[ "name" := name ]};
     banned_until := None;
     is_super_admin := false |}.

Definition classroom : db :=
  {| owner := "supabase_admin";
     auth_users := [pupil 1 "ada"; pupil 2 "ben"; pupil 3 "cleo"; pupil 4 "dora"];
     special_roles :=
       [ {| sr_user_id := 1; user_role := admin; granted_at := 5 |};
         {| sr_user_id := 4; user_role := teacher; granted_at := 6 |} ];
     depots :=
       [ {| d_id := 1; cash := 75; cash_start := 100; d_users := [2%N; 3%N] |};
         {| d_id := 2; cash := 50; cash_start := 50; d_users := [2%N] |} ];
     positions :=
       [ {| p_id := 1; p_depot_id := 1 |};
         {| p_id := 2; p_depot_id := 1 |};
         {| p_id := 3; p_depot_id := 2 |} ];
     transactions :=
       [ {| t_id := 1; t_depot_id := 1; cash_delta := -10 |};
         {| t_id := 2; t_depot_id := 1; cash_delta := -20 |};
         {| t_id := 3; t_depot_id := 1; cash_delta := 5 |} ];
     savings_plans :=
       [ {| sp_id := 1; sp_depot_id := 1; worth := Q2Qc 100;
            period := monthly |} ];
     savings_plans_budget :=
       [ {| b_depot_id := 1; budget := 250; last_changed := 0 |};
         {| b_depot_id := 2; budget := 250; last_changed := 0 |} ] |}.

(** The same class in a database whose objects were created by
    [postgres]. *)
Definition classroom_of_postgres : db :=
  {| owner := "postgres";
     auth_users := auth_users classroom;
     special_roles := special_roles classroom;
     depots := depots classroom;
     positions := positions classroom;
     transactions := transactions classroom;
     savings_plans := savings_plans classroom;
     savings_plans_budget := savings_plans_budget classroom |}.

Definition as_user (i : uuid) : session :=
  {| session_user := "authenticated"; auth_uid := Some i |}.

Definition anonymous : session :=
  {| session_user := "anon"; auth_uid := None |}.

(** ** The constraints of the tables of [admin.sql] *)

(** [PRIMARY KEY(user_id, user_role)] and [user_id UUID REFERENCES
    auth.users(id)] of [users.special_roles]; [PRIMARY KEY (depot_id)] and
    [depot_id BIGINT REFERENCES depots.depots(id)] of
    [depots.savings_plans_budget]. *)
Record constraints_hold (st : db) : Prop := {
  special_roles_pkey :
    NoDup ((λ r, (sr_user_id r, user_role r)) <$> special_roles st);
  special_roles_fkey :
    ∀ r, r ∈ special_roles st → ∃ u, u ∈ auth_users st ∧ au_id u = sr_user_id r;
  savings_plans_budget_pkey :
    NoDup (b_depot_id <$> savings_plans_budget st);
  savings_plans_budget_fkey :
    ∀ b, b ∈ savings_plans_budget st →
         ∃ d, d ∈ depots st ∧ d_id d = b_depot_id b;
}.

(** ** Granting and revoking a role directly *)

(** [GRANT SELECT, UPDATE, INSERT, DELETE ON users.special_roles TO
    authenticated]: besides the owner and [postgres], only the role
    [authenticated] may touch the table. *)
Definition may_use_special_roles (c : session) (st : db) : bool :=
  bypasses_rls c st || bool_decide (session_user c = "authenticated").

(** [users.grant_role(p_user_id, p_user_role)].  No guard and not
    [SECURITY DEFINER]: the [INSERT] runs with the privileges of the
    caller, under ["Admins can insert roles"], [FOR INSERT WITH CHECK
    (users.has_role('admin'))]. *)
Definition grant_role (c : session) (now : timestamptz) (p_user_id : uuid)
    (p_user_role : special_role) (st : db) : result db :=
  if negb (may_use_special_roles c st) then Err PermissionDenied
  else if negb (bypasses_rls c st || has_role c st admin)
  then Err RlsViolation
  else insert_special_role now p_user_id p_user_role st.

(** The rows of [users.special_roles] a session can read: ["Users can
    view own role"], [USING (auth.uid() = user_id)], and ["Teachers can
    view special roles"], [USING (users.has_role('teacher'))]. *)
Definition can_select_role (c : session) (st : db) (r : special_roles_row)
    : bool :=
  bypasses_rls c st
  || bool_decide (auth_uid c = Some (sr_user_id r))
  || has_role c st teacher.

(** The rows a session can delete: ["Admins can delete roles"],
    [USING (users.has_role('admin'))]. *)
Definition can_delete_role (c : session) (st : db) : bool :=
  bypasses_rls c st || has_role c st admin.

(** [users.revoke_role(p_user_id, p_user_role)].  No guard and not
    [SECURITY DEFINER].  The [DELETE] reads the columns of its [WHERE], so
    it reaches the rows that pass a [SELECT] policy and the [DELETE]
    policy; a row that does not is skipped without an error. *)
Definition revoke_role (c : session) (p_user_id : uuid)
    (p_user_role : special_role) (st : db) : result db :=
  if negb (may_use_special_roles c st) then Err PermissionDenied
  else
    Ok (set_special_roles
          (sql_delete
             (λ r, (sr_user_id r = p_user_id ∧ user_role r = p_user_role)
                   ∧ can_select_role c st r = true
                   ∧ can_delete_role c st = true))
          st).

(** ** User statistics *)

(** The row type of [users."stats"()]. *)
Module stats_row.
Record row := {
  user_count : Z;
  teacher_count : Z;
  admin_count : Z;
  student_count : Z;
}.
End stats_row.

(** [COUNT(DISTINCT user_id)] over a [UUID] column. *)
Definition count_distinct_uuid (xs : list (option uuid)) : Z :=
  Z.of_nat (length (remove_dups (omap id xs))).

(** [users."stats"()], [SECURITY DEFINER]. *)
Definition stats (c : session) (st : db) : result stats_row.row :=
  if negb (has_any_role c st [admin; teacher] || is_postgres Definer c st)
  then Err Unauthorized
  else
    (* SELECT COUNT( * ) FROM auth.users *)
    let v_user_count := Z.of_nat (length (auth_users st)) in
    (* SELECT COUNT(DISTINCT user_id) FROM users.special_roles
       WHERE user_role = 'teacher' *)
    let v_teacher_count :=
      count_distinct_uuid
        ((λ r, Some (sr_user_id r))
           <$> filter (λ r, user_role r = teacher) (special_roles st)) in
    let v_admin_count :=
      count_distinct_uuid
        ((λ r, Some (sr_user_id r))
           <$> filter (λ r, user_role r = admin) (special_roles st)) in
    (* SELECT COUNT( * ) FROM auth.users au WHERE NOT EXISTS
       (SELECT 1 FROM users.special_roles sr WHERE sr.user_id = au.id) *)
    let v_student_count :=
      Z.of_nat
        (length
           (filter
              (λ au, sql_exists (λ sr, sr_user_id sr = au_id au)
                       (special_roles st) = false)
              (auth_users st))) in
    Ok {| stats_row.user_count := v_user_count;
          stats_row.teacher_count := v_teacher_count;
          stats_row.admin_count := v_admin_count;
          stats_row.student_count := v_student_count |}.

(** The users that hold a role. *)
Definition holders (st : db) (r : special_role) : list auth_users_row :=
  filter
    (λ au, Exists (λ sr, sr_user_id sr = au_id au ∧ user_role sr = r)
             (special_roles st))
    (auth_users st).

(** The users that hold both roles. *)
Definition holders_of_both (st : db) : list auth_users_row :=
  filter
    (λ au, Exists (λ sr, sr_user_id sr = au_id au ∧ user_role sr = teacher)
             (special_roles st)
           ∧ Exists (λ sr, sr_user_id sr = au_id au ∧ user_role sr = admin)
               (special_roles st))
    (auth_users st).

(** The budget of a depot: that of its row in
    [depots.savings_plans_budget], if it has one. *)
Definition budget_of (st : db) (depot_id : Z) : option Z :=
  budget <$> head (filter (λ b, b_depot_id b = depot_id)
                     (savings_plans_budget st)).

(** ** Who makes a call, and which calls revoke the teacher role *)

(** The session a call is made in. *)
Definition caller (k : call) : session :=
  match k with
  | GrantTeacher c _ _ => c
  | RevokeTeacher c _ => c
  | ChangeBudget c _ _ _ => c
  | GrantReward c _ _ => c
  end.

(** A call of [revoke_teacher] for the user [u]. *)
Definition is_revoke_of (u : uuid) (k : call) : Prop :=
  match k with
  | RevokeTeacher _ v => v = u
  | _ => False
  end.

(** * Properties *)

(** ** The role gate *)

Lemma sql_exists_true {A} (cond : A → Prop) `{!∀ a, Decision (cond a)}
    (t : list A) :
  sql_exists cond t = true ↔ ∃ r, r ∈ t ∧ cond r.
Proof.
  unfold sql_exists. rewrite bool_decide_eq_true. apply Exists_exists.
Qed.

Lemma sql_exists_false {A} (cond : A → Prop) `{!∀ a, Decision (cond a)}
    (t : list A) :
  sql_exists cond t = false ↔ ∀ r, r ∈ t → ¬ cond r.
Proof.
  unfold sql_exists. rewrite bool_decide_eq_false, <- Forall_Exists_neg.
  apply Forall_forall.
Qed.

Lemma has_any_role_spec c st rs :
  has_any_role c st rs = true ↔ ∃ r, r ∈ rs ∧ has_role c st r = true.
Proof.
  unfold has_any_role, has_role. destruct (auth_uid c) as [uid|].
  - rewrite sql_exists_true. split.
    + intros (row & Hrow & Hid & Hin). exists (user_role row).
      split; [done|]. apply sql_exists_true. by exists row.
    + intros (r & Hin & Hr). apply sql_exists_true in Hr as (row & ? & ? & ?).
      exists row. by subst.
  - split; [done|]. by intros (? & ? & ?).
Qed.

Lemma has_any_role_none c st rs :
  has_role c st admin = false → has_role c st teacher = false →
  has_any_role c st rs = false.
Proof.
  intros Ha Ht. apply not_true_is_false. rewrite has_any_role_spec.
  intros ([] & _ & Hr); congruence.
Qed.

Lemma is_postgres_false sec c st :
  current_user sec c st ≠ "postgres" → is_postgres sec c st = false.
Proof. intros H. unfold is_postgres. by apply bool_decide_eq_false. Qed.

(** In the body of a [SECURITY DEFINER] function the guard's
    [current_user = 'postgres'] compares the owner of the function, not
    the role of the session: where [admin.sql] was run by [postgres], the
    guard of such a function lets every session through. *)
Lemma definer_guard_compares_owner c st :
  is_postgres Definer c st = bool_decide (owner st = "postgres").
Proof. reflexivity. Qed.

(** C10.  A session without an authenticated user ([auth.uid()] is
    [NULL]) holds no role: [has_role] is false for every role and
    [has_any_role] is false for every list of roles. *)
Theorem unauthenticated_holds_no_role c st :
  auth_uid c = None →
  (∀ r, has_role c st r = false) ∧ (∀ rs, has_any_role c st rs = false).
Proof.
  intros Hnull. unfold has_role, has_any_role. rewrite Hnull. done.
Qed.

Lemma unauthenticated_holds_no_role_witness :
  (∀ r, has_role anonymous classroom r = false)
  ∧ (∀ rs, has_any_role anonymous classroom rs = false).
Proof.
  apply (unauthenticated_holds_no_role anonymous classroom). reflexivity.
Defined.

(** ** The role API *)

(** Where [admin.sql] is not owned by [postgres], a caller that holds
    neither the admin nor the teacher role is refused by [grant_teacher]
    and by [revoke_teacher] with [Unauthorized]; the role table and all
    user records stay as they were. *)
Lemma role_api_refuses_unprivileged c st now p_user_id :
  has_role c st admin = false →
  has_role c st teacher = false →
  current_user Definer c st ≠ "postgres" →
  grant_teacher c now p_user_id st = Err Unauthorized
  ∧ revoke_teacher c p_user_id st = Err Unauthorized
  ∧ special_roles (commit (grant_teacher c now p_user_id st) st)
    = special_roles st
  ∧ auth_users (commit (grant_teacher c now p_user_id st) st)
    = auth_users st
  ∧ special_roles (commit (revoke_teacher c p_user_id st) st)
    = special_roles st
  ∧ auth_users (commit (revoke_teacher c p_user_id st) st) = auth_users st.
Proof.
  intros Ha Ht Hpg.
  assert (Hg : grant_teacher c now p_user_id st = Err Unauthorized).
  { unfold grant_teacher.
    by rewrite (has_any_role_none _ _ _ Ha Ht), (is_postgres_false _ _ _ Hpg). }
  assert (Hr : revoke_teacher c p_user_id st = Err Unauthorized).
  { unfold revoke_teacher.
    by rewrite (has_any_role_none _ _ _ Ha Ht), (is_postgres_false _ _ _ Hpg). }
  rewrite Hg, Hr. done.
Qed.

Lemma role_api_refuses_unprivileged_witness :
  grant_teacher (as_user 2) 7 3%N classroom = Err Unauthorized
  ∧ revoke_teacher (as_user 2) 4%N classroom = Err Unauthorized.
Proof.
  split.
  - apply (role_api_refuses_unprivileged (as_user 2) classroom 7 3%N);
      [reflexivity | reflexivity | vm_compute; discriminate].
  - apply (role_api_refuses_unprivileged (as_user 2) classroom 7 4%N);
      [reflexivity | reflexivity | vm_compute; discriminate].
Defined.

(** C7.  In a database whose objects [postgres] created, user 2 holds
    neither the admin nor the teacher role and is connected as
    [authenticated]; yet [grant_teacher] and [revoke_teacher] do not
    refuse the call: in the body of these [SECURITY DEFINER] functions
    [current_user] is the owner and the guard passes.  User 2 makes
    themself a teacher, and takes the teacher role from user 4. *)
Theorem role_api_open_to_unprivileged :
  has_role (as_user 2) classroom_of_postgres admin = false
  ∧ has_role (as_user 2) classroom_of_postgres teacher = false
  ∧ session_user (as_user 2) = "authenticated"
  ∧ (∃ st',
       grant_teacher (as_user 2) 7 2%N classroom_of_postgres = Ok st'
       ∧ has_role (as_user 2) st' teacher = true
       ∧ (is_super_admin <$> auth_users st') = [true; true; true; true])
  ∧ (∃ st',
       revoke_teacher (as_user 2) 4%N classroom_of_postgres = Ok st'
       ∧ has_role (as_user 4) classroom_of_postgres teacher = true
       ∧ has_role (as_user 4) st' teacher = false).
Proof.
  repeat (split; [reflexivity|]).
  split; eexists; repeat split; reflexivity.
Qed.

(** [revoke_teacher] clears the flag where [id = p_user_id] and leaves
    every other user record as it was. *)
Lemma revoke_teacher_other_users c st st' p_user_id i (u : auth_users_row) :
  revoke_teacher c p_user_id st = Ok st' →
  auth_users st !! i = Some u →
  auth_users st' !! i
  = Some (if decide (au_id u = p_user_id)
          then set_is_super_admin false u else u).
Proof.
  unfold revoke_teacher. case_match; [done|]. intros [= <-] Hi. simpl.
  unfold sql_update. by rewrite list_lookup_fmap, Hi.
Qed.

(** [grant_teacher] has no [WHERE]: when it succeeds every user record
    carries the flag. *)
Lemma grant_teacher_all_users c st st' now p_user_id (u : auth_users_row) :
  grant_teacher c now p_user_id st = Ok st' →
  u ∈ auth_users st' → is_super_admin u = true.
Proof.
  unfold grant_teacher. case_match; [done|].
  unfold insert_special_role. repeat case_match; try done.
  intros [= <-]. simpl. unfold sql_update. rewrite list_elem_of_fmap.
  intros (v & -> & _). by rewrite decide_True.
Qed.

(** C1.  The administrator of [classroom] makes user 2 a teacher: the
    call succeeds, the role row of user 2 is added, and the elevated flag
    is set on the records of all four users, not only on that of
    user 2. *)
Theorem grant_teacher_elevates_everyone :
  ∃ st',
    grant_teacher (as_user 1) 7 2%N classroom = Ok st'
    ∧ (is_super_admin <$> auth_users classroom) = [false; false; false; false]
    ∧ (au_id <$> auth_users st') = [1%N; 2%N; 3%N; 4%N]
    ∧ (is_super_admin <$> auth_users st') = [true; true; true; true].
Proof. eexists. repeat split; reflexivity. Qed.

(** ** Rewards and the admin overview *)

(** Where [admin.sql] is not owned by [postgres], a caller that holds
    neither the teacher nor the admin role and is not connected as
    [postgres] is refused with [Unauthorized] by [grant_reward], for every
    depot id whether a depot with that id exists or not and for every
    [INT] amount, and by [get_admin_overview]; the state stays as it
    was. *)
Lemma reward_and_admin_overview_refuse_unprivileged c st
    p_depot_id p_amount :
  has_role c st admin = false →
  has_role c st teacher = false →
  current_user Invoker c st ≠ "postgres" →
  current_user Definer c st ≠ "postgres" →
  in_int p_amount →
  grant_reward c p_depot_id p_amount st = Err Unauthorized
  ∧ get_admin_overview c st = Err Unauthorized
  ∧ commit (grant_reward c p_depot_id p_amount st) st = st.
Proof.
  intros Ha Ht Hinv Hdef Hint.
  assert (Hg : grant_reward c p_depot_id p_amount st = Err Unauthorized).
  { unfold grant_reward. rewrite bool_decide_eq_true_2 by done. simpl.
    by rewrite (has_any_role_none _ _ _ Ha Ht), (is_postgres_false _ _ _ Hinv). }
  split; [done|]. split; [|by rewrite Hg].
  unfold get_admin_overview.
  by rewrite (has_any_role_none _ _ _ Ha Ht), (is_postgres_false _ _ _ Hdef).
Qed.

Lemma reward_and_admin_overview_refuse_unprivileged_witness :
  (grant_reward (as_user 2) 1 50 classroom = Err Unauthorized
   ∧ get_admin_overview (as_user 2) classroom = Err Unauthorized
   ∧ commit (grant_reward (as_user 2) 1 50 classroom) classroom = classroom)
  ∧ grant_reward (as_user 2) 99 50 classroom = Err Unauthorized.
Proof.
  split.
  - apply (reward_and_admin_overview_refuse_unprivileged
             (as_user 2) classroom 1 50);
      [reflexivity | reflexivity
      | vm_compute; discriminate | vm_compute; discriminate
      | by apply (bool_decide_unpack _)].
  - apply (reward_and_admin_overview_refuse_unprivileged
             (as_user 2) classroom 99 50);
      [reflexivity | reflexivity
      | vm_compute; discriminate | vm_compute; discriminate
      | by apply (bool_decide_unpack _)].
Defined.

(** C3.  In a database whose objects [postgres] created, user 2 holds
    neither the teacher nor the admin role and is connected as
    [authenticated], not as [postgres]; [grant_reward] refuses the call
    with [Unauthorized], but [get_admin_overview] does not: in the body of
    the [SECURITY DEFINER] function [current_user] is the owner, the guard
    passes, and the call returns the rows of all four users. *)
Theorem admin_overview_open_to_unprivileged :
  has_role (as_user 2) classroom_of_postgres admin = false
  ∧ has_role (as_user 2) classroom_of_postgres teacher = false
  ∧ session_user (as_user 2) = "authenticated"
  ∧ grant_reward (as_user 2) 1 50 classroom_of_postgres = Err Unauthorized
  ∧ ∃ rows,
      get_admin_overview (as_user 2) classroom_of_postgres = Ok rows
      ∧ (admin_overview.id <$> rows) ≡ₚ [1%N; 2%N; 3%N; 4%N].
Proof.
  repeat (split; [reflexivity|]). eexists. split; reflexivity.
Qed.

(** ** The depot overview *)

(** C4, as stated, fails: user 2 of [classroom] holds no role and is a
    member of depots 1 and 2, yet the depot overview does not return the
    rows of those depots. *)
Lemma depot_overview_hides_own_depots :
  has_role (as_user 2) classroom admin = false
  ∧ has_role (as_user 2) classroom teacher = false
  ∧ ¬ ∃ rows,
        get_depot_overview (as_user 2) classroom = Ok rows
        ∧ ∀ i, i ∈ (depot_overview.id <$> rows)
               ↔ ∃ d, d ∈ depots classroom ∧ d_id d = i ∧ 2%N ∈ d_users d.
Proof.
  split; [reflexivity|]. split; [reflexivity|].
  intros (rows & Hrows & _). vm_compute in Hrows. discriminate.
Qed.

(** C4, amended.  A caller that holds neither the teacher nor the admin
    role, where the guard's [current_user = 'postgres'] is false, gets
    [Unauthorized] from the depot overview and so no row at all, neither
    of a foreign depot nor of a depot of their own. *)
Theorem depot_overview_refuses_unprivileged c st :
  has_role c st admin = false →
  has_role c st teacher = false →
  current_user Definer c st ≠ "postgres" →
  get_depot_overview c st = Err Unauthorized.
Proof.
  intros Ha Ht Hdef. unfold get_depot_overview.
  by rewrite (has_any_role_none _ _ _ Ha Ht), (is_postgres_false _ _ _ Hdef).
Qed.

Lemma depot_overview_refuses_unprivileged_witness :
  get_depot_overview (as_user 2) classroom = Err Unauthorized.
Proof.
  apply (depot_overview_refuses_unprivileged (as_user 2) classroom);
    [reflexivity | reflexivity | vm_compute; discriminate].
Defined.

(** ** Changing the budget *)

(** C8, as stated, fails: the administrator of [classroom] holds the
    admin role, yet [change_budget] on the existing depot 1 is refused. *)
Lemma change_budget_refuses_admin :
  has_role (as_user 1) classroom admin = true
  ∧ (∃ d, d ∈ depots classroom ∧ d_id d = 1)
  ∧ change_budget (as_user 1) 9 1 300 classroom = Err RlsViolation
  ∧ ¬ ((has_role (as_user 1) classroom teacher = true
        ∨ has_role (as_user 1) classroom admin = true)
       ↔ ∃ st', change_budget (as_user 1) 9 1 300 classroom = Ok st').
Proof.
  split; [reflexivity|]. split.
  { eexists. split; [apply list_elem_of_here | reflexivity]. }
  split; [reflexivity|].
  intros [Hsucc _]. destruct Hsucc as [st' Hst']; [by right|].
  vm_compute in Hst'. discriminate.
Qed.

(** C8, amended.  For a caller connected as [authenticated] (neither the
    owner of the table nor [postgres]) and an existing depot,
    [change_budget] succeeds exactly when the caller holds the teacher
    role; the admin role is not asked for.  On success the depot has a
    budget row, and every budget row of the depot holds the new amount,
    whether a row existed before or not.  Otherwise the call is refused
    by row-level security and the state stays as it was. *)
Theorem change_budget_teacher_only c st now p_depot_id p_budget :
  session_user c = "authenticated" →
  bypasses_rls c st = false →
  (∃ d, d ∈ depots st ∧ d_id d = p_depot_id) →
  (has_role c st teacher = true →
   ∃ st',
     change_budget c now p_depot_id p_budget st = Ok st'
     ∧ (∃ b, b ∈ savings_plans_budget st' ∧ b_depot_id b = p_depot_id)
     ∧ (∀ b, b ∈ savings_plans_budget st' → b_depot_id b = p_depot_id →
             budget b = p_budget))
  ∧ (has_role c st teacher = false →
     change_budget c now p_depot_id p_budget st = Err RlsViolation
     ∧ commit (change_budget c now p_depot_id p_budget st) st = st).
Proof.
  intros Hrole Hrls Hdepot. unfold change_budget.
  rewrite Hrls, Hrole, bool_decide_eq_true_2 by done. simpl. split.
  - intros ->. simpl.
    destruct (sql_exists _ (savings_plans_budget st)) eqn:Hrow.
    + eexists. split; [done|]. simpl. unfold sql_update. split.
      * apply sql_exists_true in Hrow as (b & Hb & Hid).
        exists {| b_depot_id := b_depot_id b; budget := p_budget;
                  last_changed := now |}.
        split; [|done]. apply list_elem_of_fmap. exists b.
        by rewrite decide_True.
      * intros b' (b & -> & Hb)%list_elem_of_fmap.
        case_decide; simpl; [done|]. intros; congruence.
    + assert (Hd : sql_exists (λ d, d_id d = p_depot_id) (depots st) = true)
        by by apply sql_exists_true.
      rewrite Hd. eexists. split; [done|]. simpl. split.
      * eexists. split; [apply elem_of_app; right; apply list_elem_of_here|].
        done.
      * rewrite sql_exists_false in Hrow.
        intros b [Hb | ->%list_elem_of_singleton]%elem_of_app Hid.
        -- by destruct (Hrow b Hb).
        -- done.
  - intros ->. done.
Qed.

Lemma change_budget_teacher_only_witness :
  (∃ st', change_budget (as_user 4) 9 1 300 classroom = Ok st'
          ∧ (∃ b, b ∈ savings_plans_budget st' ∧ b_depot_id b = 1)
          ∧ (∀ b, b ∈ savings_plans_budget st' → b_depot_id b = 1 →
                  budget b = 300))
  ∧ change_budget (as_user 2) 9 1 300 classroom = Err RlsViolation.
Proof.
  split.
  - apply (change_budget_teacher_only (as_user 4) classroom 9 1 300);
      [reflexivity | reflexivity | | reflexivity].
    eexists. split; [apply list_elem_of_here | reflexivity].
  - apply (change_budget_teacher_only (as_user 2) classroom 9 1 300);
      [reflexivity | reflexivity | | reflexivity].
    eexists. split; [apply list_elem_of_here | reflexivity].
Defined.

(** ** Cash and the ledger *)

Lemma exec_transactions k st st' :
  exec k st = Ok st' → transactions st' = transactions st.
Proof.
  destruct k; simpl.
  - unfold grant_teacher, insert_special_role.
    repeat case_match; try done; by intros [= <-].
  - unfold revoke_teacher. case_match; [done|]. by intros [= <-].
  - unfold change_budget. repeat case_match; try done; by intros [= <-].
  - unfold grant_reward. repeat case_match; try done; by intros [= <-].
Qed.

Lemma exec_depots k st st' :
  exec k st = Ok st' →
  depots st'
  = match k with
    | GrantReward _ d a => sql_update (λ x, d_id x = d) (add_cash a) (depots st)
    | _ => depots st
    end.
Proof.
  destruct k; simpl.
  - unfold grant_teacher, insert_special_role.
    repeat case_match; try done; by intros [= <-].
  - unfold revoke_teacher. case_match; [done|]. by intros [= <-].
  - unfold change_budget. repeat case_match; try done; by intros [= <-].
  - unfold grant_reward. repeat case_match; try done; by intros [= <-].
Qed.

Lemma ledger_sum_transactions st st' i :
  transactions st' = transactions st → ledger_sum st' i = ledger_sum st i.
Proof. unfold ledger_sum. by intros ->. Qed.

(** One call moves the cash of a depot away from the ledger by exactly
    the reward it grants to that depot. *)
Lemma exec_cash_ledger k st (off : Z → Z) :
  (∀ d, d ∈ depots st →
        cash d = cash_start d + ledger_sum st (d_id d) + off (d_id d)) →
  ∀ d, d ∈ depots (commit (exec k st) st) →
       cash d = cash_start d + ledger_sum (commit (exec k st) st) (d_id d)
                + off (d_id d) + rewards_granted [k] st (d_id d).
Proof.
  intros Hinv d. unfold rewards_granted.
  destruct (exec k st) as [st'|e] eqn:Hexec; simpl.
  - rewrite (ledger_sum_transactions st st') by eauto using exec_transactions.
    rewrite (exec_depots _ _ _ Hexec).
    destruct k; try (intros Hd; rewrite (Hinv d Hd); lia).
    simpl in Hexec. rewrite Hexec.
    unfold sql_update. intros (x & -> & Hx)%list_elem_of_fmap.
    specialize (Hinv x Hx).
    repeat case_decide; simpl in *; try congruence; lia.
  - intros Hd. rewrite (Hinv d Hd).
    destruct k; simpl in Hexec; rewrite ?Hexec; lia.
Qed.

Lemma run_cash_ledger ks :
  ∀ st (off : Z → Z),
    (∀ d, d ∈ depots st →
          cash d = cash_start d + ledger_sum st (d_id d) + off (d_id d)) →
    ∀ d, d ∈ depots (run ks st) →
         cash d = cash_start d + ledger_sum (run ks st) (d_id d)
                  + off (d_id d) + rewards_granted ks st (d_id d).
Proof.
  induction ks as [|k ks IH]; intros st off Hinv d Hd.
  - simpl in *. rewrite (Hinv d Hd). lia.
  - change (run (k :: ks) st) with (run ks (commit (exec k st) st)) in *.
    pose proof (exec_cash_ledger k st off Hinv) as Hstep.
    rewrite (IH (commit (exec k st) st)
               (λ i, off i + rewards_granted [k] st i)); [simpl; lia| |done].
    intros d' Hd'. rewrite (Hstep d' Hd'). lia.
Qed.

(** C2, as stated, fails: in [classroom] the cash of every depot is
    [cash_start] plus the cash deltas of its ledger entries; after the
    teacher grants depot 1 a reward of 50 the ledger is as before and the
    equation no longer holds. *)
Lemma reward_bypasses_ledger :
  Forall (λ d, cash d = cash_start d + ledger_sum classroom (d_id d))
    (depots classroom)
  ∧ transactions (run [GrantReward (as_user 4) 1 50] classroom)
    = transactions classroom
  ∧ ¬ Forall
        (λ d, cash d
              = cash_start d
                + ledger_sum (run [GrantReward (as_user 4) 1 50] classroom)
                    (d_id d))
        (depots (run [GrantReward (as_user 4) 1 50] classroom)).
Proof.
  split; [by repeat constructor|]. split; [reflexivity|].
  intros H. apply Forall_cons_1 in H as [H _]. vm_compute in H. discriminate.
Qed.

(** C2, amended.  [grant_reward] adds the amount to the cash of the depot
    and writes no ledger entry; no other call changes cash or the ledger.
    So from a state where the cash of every depot is [cash_start] plus the
    cash deltas of its ledger entries, after every sequence of calls the
    cash of every depot is [cash_start] plus the cash deltas of its ledger
    entries plus the rewards granted to it. *)
Theorem cash_is_ledger_plus_rewards ks st :
  (∀ d, d ∈ depots st → cash d = cash_start d + ledger_sum st (d_id d)) →
  ∀ d, d ∈ depots (run ks st) →
       cash d = cash_start d + ledger_sum (run ks st) (d_id d)
                + rewards_granted ks st (d_id d).
Proof.
  intros Hinv d Hd.
  rewrite (run_cash_ledger ks st (λ _, 0)); [lia| |done].
  intros d' Hd'. rewrite (Hinv d' Hd'). lia.
Qed.

Lemma cash_is_ledger_plus_rewards_witness :
  Forall
    (λ d, cash d
          = cash_start d
            + ledger_sum
                (run [GrantReward (as_user 4) 1 50;
                      GrantReward (as_user 2) 1 10;
                      ChangeBudget (as_user 4) 9 2 80] classroom) (d_id d)
            + rewards_granted
                [GrantReward (as_user 4) 1 50;
                 GrantReward (as_user 2) 1 10;
                 ChangeBudget (as_user 4) 9 2 80] classroom (d_id d))
    (depots (run [GrantReward (as_user 4) 1 50;
                  GrantReward (as_user 2) 1 10;
                  ChangeBudget (as_user 4) 9 2 80] classroom)).
Proof.
  apply Forall_forall.
  apply (cash_is_ledger_plus_rewards
           [GrantReward (as_user 4) 1 50;
            GrantReward (as_user 2) 1 10;
            ChangeBudget (as_user 4) 9 2 80] classroom).
  intros d Hd.
  apply (proj1 (Forall_forall
                  (λ d, cash d = cash_start d + ledger_sum classroom (d_id d))
                  (depots classroom))); [|exact Hd].
  repeat constructor.
Defined.

(** ** Joins, groups and aggregates *)

Lemma filter_all {A} (P : A → Prop) `{!∀ a, Decision (P a)} (l : list A) :
  (∀ x, x ∈ l → P x) → filter P l = l.
Proof.
  induction l as [|a l IH]; intros Hall; [done|].
  rewrite filter_cons_True by (apply Hall; left).
  f_equal. apply IH. intros x Hx. apply Hall. by right.
Qed.

Lemma filter_none {A} (P : A → Prop) `{!∀ a, Decision (P a)} (l : list A) :
  (∀ x, x ∈ l → ¬ P x) → filter P l = [].
Proof.
  induction l as [|a l IH]; intros Hnone; [done|].
  rewrite filter_cons_False by (apply Hnone; left).
  apply IH. intros x Hx. apply Hnone. by right.
Qed.

Section relational.
Context {A B : Type}.
Context (on : A → B → Prop) `{!∀ a b, Decision (on a b)}.

(** The rows of a left join: a left row with a partner that satisfies
    the condition, or a left row without any partner, padded. *)
Lemma elem_of_left_join (l : list A) (r : list B) a ob :
  (a, ob) ∈ left_join on l r
  ↔ a ∈ l ∧ match ob with
            | Some b => b ∈ r ∧ on a b
            | None => ∀ b, b ∈ r → ¬ on a b
            end.
Proof.
  unfold left_join. rewrite list_elem_of_bind. split.
  - intros (a' & Hx & Ha'). destruct (filter (on a') r) as [|b0 bs] eqn:Hf.
    + apply list_elem_of_singleton in Hx as [= -> ->]. split; [done|].
      intros b Hb Hon. by eapply filter_nil_not_elem_of.
    + apply list_elem_of_fmap in Hx as (b & [= -> ->] & Hb).
      rewrite <- Hf in Hb. apply list_elem_of_filter in Hb as [? ?]. done.
  - intros [Ha Hob]. exists a. split; [|done]. destruct ob as [b|].
    + destruct Hob as [Hb Hon].
      assert (Hin : b ∈ filter (on a) r) by by apply list_elem_of_filter.
      destruct (filter (on a) r) as [|b0 bs] eqn:Hf;
        [by apply elem_of_nil in Hin|].
      apply list_elem_of_fmap. by exists b.
    + rewrite filter_none by done. apply list_elem_of_here.
Qed.

(** A left join keeps every left row. *)
Lemma left_join_total (l : list A) (r : list B) a :
  a ∈ l → ∃ ob, (a, ob) ∈ left_join on l r.
Proof.
  intros Ha. destruct (filter (on a) r) as [|b bs] eqn:Hf.
  - exists None. apply elem_of_left_join. split; [done|].
    intros b Hb Hon. by eapply filter_nil_not_elem_of.
  - exists (Some b). apply elem_of_left_join. split; [done|].
    apply and_comm, (list_elem_of_filter (on a)). rewrite Hf. left.
Qed.
End relational.

Lemma elem_of_group_by {R K} `{EqDecision K} (key : R → K) (rows : list R)
    k g :
  (k, g) ∈ group_by key rows
  ↔ (∃ x, x ∈ rows ∧ key x = k) ∧ g = filter (λ r, key r = k) rows.
Proof.
  unfold group_by. rewrite list_elem_of_fmap. split.
  - intros (k' & [= -> ->] & Hk). split; [|done].
    apply elem_of_remove_dups, list_elem_of_fmap in Hk as (x & -> & Hx).
    by exists x.
  - intros [(x & Hx & <-) ->]. exists (key x). split; [done|].
    apply elem_of_remove_dups, list_elem_of_fmap. by exists x.
Qed.

(** A group is never empty, and every row of it has the key of the
    group. *)
Lemma group_by_head {R K} `{EqDecision K} (key : R → K) (rows : list R) k g :
  (k, g) ∈ group_by key rows → ∃ x, head g = Some x ∧ x ∈ rows ∧ key x = k.
Proof.
  rewrite elem_of_group_by. intros [(x & Hx & Hk) ->].
  assert (Hin : x ∈ filter (λ r, key r = k) rows)
    by by apply list_elem_of_filter.
  destruct (filter (λ r, key r = k) rows) as [|y l] eqn:Hf;
    [by apply elem_of_nil in Hin|].
  exists y. split; [done|].
  apply and_comm, (list_elem_of_filter (λ r, key r = k)). rewrite Hf. left.
Qed.

(** [COUNT(DISTINCT x)] counts a duplicate-free list that has the same
    non-[NULL] members. *)
Lemma count_distinct_spec (xs : list (option Z)) (ys : list Z) :
  NoDup ys → (∀ z, Some z ∈ xs ↔ z ∈ ys) →
  count_distinct xs = Z.of_nat (length ys).
Proof.
  intros Hnd Hiff. unfold count_distinct. f_equal.
  apply Permutation_length, NoDup_Permutation;
    [apply NoDup_remove_dups | done |].
  intros z. rewrite elem_of_remove_dups, list_elem_of_omap, <- Hiff.
  split; [by intros ([] & ? & [= ->])|]. intros Hz. by exists (Some z).
Qed.

Lemma NoDup_fmap_filter {A B} `{EqDecision B} (f : A → B) (P : A → Prop)
    `{!∀ a, Decision (P a)} (l : list A) :
  NoDup (f <$> l) → NoDup (f <$> filter P l).
Proof.
  intros Hnd. eapply sublist_NoDup; [done|].
  apply fmap_sublist, sublist_filter.
Qed.

(** Rows of a table with a key column are equal when their keys are. *)
Lemma key_determines_row {A B} (f : A → B) (l : list A) x y :
  NoDup (f <$> l) → x ∈ l → y ∈ l → f x = f y → x = y.
Proof.
  intros Hnd Hx Hy Hf.
  apply list_elem_of_lookup in Hx as [i Hi].
  apply list_elem_of_lookup in Hy as [j Hj].
  assert (i = j).
  { eapply NoDup_lookup; [done| |]; rewrite list_lookup_fmap.
    - by rewrite Hi.
    - by rewrite Hj, Hf. }
  subst. congruence.
Qed.

(** [SUM] is [NULL] when every input is. *)
Lemma sql_sum_all_null (xs : list (option Qc)) :
  (∀ o, o ∈ xs → o = None) → sql_sum xs = None.
Proof.
  intros Hnull. unfold sql_sum.
  assert (Hnil : omap id xs = []); [|by rewrite Hnil].
  induction xs as [|o xs IH]; [done|]. simpl.
  rewrite (Hnull o) by left. apply IH. intros o' Ho'. apply Hnull. by right.
Qed.

(** ** The savings-plan budget overview *)

(** Every budget row is shown in the overview. *)
Lemma budget_overview_total st b :
  b ∈ savings_plans_budget st →
  ∃ row, row ∈ savings_plans_budget_overview st
         ∧ budget_overview.depot_id row = b_depot_id b
         ∧ budget_overview.budget row = budget b
         ∧ budget_overview.last_changed row = last_changed b.
Proof.
  intros Hb.
  destruct (left_join_total (λ dsb dsp, sp_depot_id dsp = b_depot_id dsb)
              _ (savings_plans st) b Hb) as [ob Hob].
  exists (budget_select
            ((budget b, b_depot_id b, last_changed b),
             filter (λ x, (budget x.1, b_depot_id x.1, last_changed x.1)
                          = (budget b, b_depot_id b, last_changed b))
               (budget_from st))).
  split; [|done].
  apply list_elem_of_fmap. eexists. split; [reflexivity|].
  apply elem_of_group_by. split; [|reflexivity]. by exists (b, ob).
Qed.

(** A row of the overview whose depot has no savings plan carries
    [NULL]s. *)
Lemma budget_overview_null st row :
  row ∈ savings_plans_budget_overview st →
  (∀ p, p ∈ savings_plans st →
        sp_depot_id p ≠ budget_overview.depot_id row) →
  budget_overview.monthly_expenses row = None
  ∧ budget_overview.remaining_budget row = None.
Proof.
  intros ([k g] & -> & Hg)%list_elem_of_fmap Hnone.
  apply elem_of_group_by in Hg as [_ ->]. simpl in *.
  assert (Hsum : sql_sum (per_month <$> filter
                   (λ x, (budget x.1, b_depot_id x.1, last_changed x.1) = k)
                   (budget_from st)) = None).
  { apply sql_sum_all_null.
    intros o (x & -> & [Hk Hx]%list_elem_of_filter)%list_elem_of_fmap.
    destruct x as [b' [p|]]; [|done].
    apply elem_of_left_join in Hx as [_ [Hp Hon]].
    destruct (Hnone p Hp). rewrite <- Hk. done. }
  by rewrite Hsum.
Qed.

(** C9.  A depot with a budget row and no savings plan has a row in the
    savings-plan budget overview, and every row the overview has for it
    reports [monthly_expenses] and [remaining_budget] as [NULL]. *)
Theorem budget_overview_null_without_plans st b :
  b ∈ savings_plans_budget st →
  (∀ p, p ∈ savings_plans st → sp_depot_id p ≠ b_depot_id b) →
  (∃ row, row ∈ savings_plans_budget_overview st
          ∧ budget_overview.depot_id row = b_depot_id b
          ∧ budget_overview.budget row = budget b)
  ∧ (∀ row, row ∈ savings_plans_budget_overview st →
            budget_overview.depot_id row = b_depot_id b →
            budget_overview.monthly_expenses row = None
            ∧ budget_overview.remaining_budget row = None).
Proof.
  intros Hb Hnone. split.
  - destruct (budget_overview_total st b Hb) as (row & ? & ? & ? & _).
    by exists row.
  - intros row Hrow Hid. apply (budget_overview_null st row Hrow).
    by rewrite Hid.
Qed.

Lemma budget_overview_null_without_plans_witness :
  ∃ row, row ∈ savings_plans_budget_overview classroom
         ∧ budget_overview.depot_id row = 2
         ∧ budget_overview.budget row = 250
         ∧ budget_overview.monthly_expenses row = None
         ∧ budget_overview.remaining_budget row = None.
Proof.
  destruct (budget_overview_null_without_plans classroom
              {| b_depot_id := 2; budget := 250; last_changed := 0 |})
    as [(row & Hrow & Hid & Hbudget) Hnull].
  - right. left.
  - intros p Hp.
    apply (proj1 (Forall_forall (λ p, sp_depot_id p ≠ 2)
                    (savings_plans classroom))); [|exact Hp].
    repeat constructor; vm_compute; discriminate.
  - exists row. destruct (Hnull row Hrow Hid) as [Hexp Hrem].
    repeat split; assumption.
Defined.

(** The group of a left row whose key no other left row shares consists
    of the joined rows of that left row. *)
Lemma filter_bind_unique {A B K} `{EqDecision K} (h : A → K) (key : B → K)
    (f : A → list B) (l : list A) a :
  NoDup (h <$> l) → a ∈ l →
  (∀ a' x, x ∈ f a' → key x = h a') →
  filter (λ x, key x = h a) (l ≫= f) = f a.
Proof.
  intros Hnd Ha Hkey. induction l as [|a0 l IH]; [by apply elem_of_nil in Ha|].
  rewrite fmap_cons in Hnd. apply NoDup_cons in Hnd as [Hfresh Hnd].
  rewrite bind_cons, filter_app.
  apply elem_of_cons in Ha as [->|Ha].
  - rewrite filter_all by (intros; by apply Hkey).
    rewrite filter_none; [by rewrite app_nil_r|].
    intros x (a' & Hx & Ha')%list_elem_of_bind Hk.
    apply Hfresh. rewrite <- Hk, (Hkey a' x Hx). by apply list_elem_of_fmap_2.
  - rewrite filter_none; [by apply IH|].
    intros x Hx Hk. apply Hfresh.
    rewrite <- (Hkey a0 x Hx), Hk. by apply list_elem_of_fmap_2.
Qed.

Lemma foldl_Qcplus (l : list Qc) (x : Qc) :
  foldl Qcplus x l = (x + foldr Qcplus (Q2Qc 0) l)%Qc.
Proof.
  revert x. induction l as [|y l IH]; intros x; simpl.
  - by rewrite Qcplus_0_r.
  - by rewrite IH, Qcplus_assoc.
Qed.

(** [SUM] over rows without [NULL]s, at least one of them. *)
Lemma sql_sum_some (ws : list Qc) :
  ws ≠ [] → sql_sum (Some <$> ws) = Some (foldr Qcplus (Q2Qc 0) ws).
Proof.
  intros Hne. unfold sql_sum.
  assert (Hws : omap id (Some <$> ws) = ws).
  { clear Hne. induction ws as [|w ws IH]; [done|]. simpl. f_equal. exact IH. }
  rewrite Hws. destruct ws as [|w ws]; [done|]. simpl.
  by rewrite foldl_Qcplus.
Qed.

(** C5, as stated, fails: depot 2 of [classroom] has a monthly budget of
    250 and no savings plan, so its monthly budget minus the sum over its
    savings plans is 250, yet no row of the overview reports that. *)
Lemma remaining_budget_missing_without_plans :
  (∃ b, b ∈ savings_plans_budget classroom
        ∧ b_depot_id b = 2 ∧ budget b = 250)
  ∧ normalized_monthly_worth classroom 2 = Q2Qc 0
  ∧ ¬ ∃ row, row ∈ savings_plans_budget_overview classroom
             ∧ budget_overview.depot_id row = 2
             ∧ budget_overview.remaining_budget row
               = Some (Q2Qc (inject_Z 250)
                       - normalized_monthly_worth classroom 2)%Qc.
Proof.
  split; [|split; [reflexivity|]].
  { eexists. split; [right; left|]. done. }
  intros (row & Hrow & Hid & Hrem).
  destruct (budget_overview_null classroom row Hrow) as [_ Hnull];
    [|congruence].
  intros p Hp. rewrite Hid.
  apply (proj1 (Forall_forall (λ p, sp_depot_id p ≠ 2)
                  (savings_plans classroom))); [|exact Hp].
  repeat constructor; vm_compute; discriminate.
Qed.

(** C5, amended.  For every depot with a monthly budget and at least one
    savings plan, the savings-plan budget overview has a row that reports
    [monthly_expenses] as the sum over the savings plans of the depot of
    worth times the per-month factor of the frequency, and
    [remaining_budget] as the monthly budget minus that sum. *)
Theorem remaining_budget_with_plans st b :
  NoDup (b_depot_id <$> savings_plans_budget st) →
  b ∈ savings_plans_budget st →
  (∃ p, p ∈ savings_plans st ∧ sp_depot_id p = b_depot_id b) →
  ∃ row, row ∈ savings_plans_budget_overview st
         ∧ budget_overview.depot_id row = b_depot_id b
         ∧ budget_overview.budget row = budget b
         ∧ budget_overview.monthly_expenses row
           = Some (normalized_monthly_worth st (b_depot_id b))
         ∧ budget_overview.remaining_budget row
           = Some (Q2Qc (inject_Z (budget b))
                   - normalized_monthly_worth st (b_depot_id b))%Qc.
Proof.
  intros Hnd Hb (p & Hp & Hpb).
  set (h := λ x : savings_plans_budget_row,
              (budget x, b_depot_id x, last_changed x)).
  set (ps := filter (λ dsp, sp_depot_id dsp = b_depot_id b) (savings_plans st)).
  assert (Hps : p ∈ ps) by by apply list_elem_of_filter.
  assert (Hgroup :
    filter (λ x, h x.1 = h b) (budget_from st) = (λ dsp, (b, Some dsp)) <$> ps).
  { unfold budget_from, left_join.
    rewrite (filter_bind_unique h (λ x, h x.1)); [| |done|].
    - fold ps. destruct ps; [by apply elem_of_nil in Hps|done].
    - apply (NoDup_fmap_1 (λ k, k.1.2)). by rewrite <- list_fmap_compose.
    - intros b' x Hx. case_match.
      + by apply list_elem_of_singleton in Hx as ->.
      + by apply list_elem_of_fmap in Hx as (? & -> & _). }
  exists (budget_select (h b, filter (λ x, h x.1 = h b) (budget_from st))).
  assert (Hsum :
    sql_sum (per_month <$> filter (λ x, h x.1 = h b) (budget_from st))
    = Some (normalized_monthly_worth st (b_depot_id b))).
  { rewrite Hgroup, <- list_fmap_compose.
    change (per_month ∘ (λ dsp, (b, Some dsp)))
      with (Some ∘ (λ dsp, (worth dsp * sp_to_per_month (period dsp))%Qc)).
    rewrite list_fmap_compose, sql_sum_some; [done|].
    destruct ps; [by apply elem_of_nil in Hps|done]. }
  split.
  { apply list_elem_of_fmap. eexists. split; [reflexivity|].
    apply elem_of_group_by. split; [|reflexivity].
    exists (b, Some p). split; [|done].
    apply elem_of_left_join. done. }
  unfold budget_select. simpl. rewrite Hsum. done.
Qed.

Lemma remaining_budget_with_plans_witness :
  ∃ row, row ∈ savings_plans_budget_overview classroom
         ∧ budget_overview.depot_id row = 1
         ∧ budget_overview.budget row = 250
         ∧ budget_overview.remaining_budget row = Some (Q2Qc 150).
Proof.
  destruct (remaining_budget_with_plans classroom
              {| b_depot_id := 1; budget := 250; last_changed := 0 |})
    as (row & Hrow & Hid & Hbudget & _ & Hrem).
  - apply (bool_decide_unpack _). vm_compute. exact I.
  - left.
  - exists {| sp_id := 1; sp_depot_id := 1; worth := Q2Qc 100;
              period := monthly |}.
    split; [left | reflexivity].
  - exists row. repeat split; assumption.
Defined.

(** ** The counts of the overviews *)

(** A row either has a partner in a table or has none. *)
Lemma partner_total {B} (P : B → Prop) `{!∀ b, Decision (P b)} (r : list B) :
  ∃ ob : option B,
    match ob with
    | Some b => b ∈ r ∧ P b
    | None => ∀ b, b ∈ r → ¬ P b
    end.
Proof.
  destruct (decide (Exists P r)) as [Hex|Hnex].
  - apply Exists_exists in Hex as (b & Hb & HP). by exists (Some b).
  - exists None. intros b Hb HP. apply Hnex, Exists_exists. by exists b.
Qed.

(** The rows of the [FROM] clause of the admin overview. *)
Lemma elem_of_admin_from st x :
  x ∈ admin_from st
  ↔ af_au x ∈ auth_users st
    ∧ af_roles x = roles st (af_au x)
    ∧ match af_d x with
      | Some d => d ∈ depots st ∧ au_id (af_au x) ∈ d_users d
      | None => ∀ d, d ∈ depots st → ¬ au_id (af_au x) ∈ d_users d
      end
    ∧ match af_p x with
      | Some p => p ∈ positions st ∧ d_id <$> af_d x = Some (p_depot_id p)
      | None =>
          ∀ p, p ∈ positions st → ¬ d_id <$> af_d x = Some (p_depot_id p)
      end
    ∧ match af_t x with
      | Some t => t ∈ transactions st ∧ d_id <$> af_d x = Some (t_depot_id t)
      | None =>
          ∀ t, t ∈ transactions st → ¬ d_id <$> af_d x = Some (t_depot_id t)
      end.
Proof.
  destruct x as [[[[au r] od] op] ot].
  unfold admin_from, af_au, af_roles, af_d, af_p, af_t. simpl.
  rewrite !elem_of_left_join. simpl.
  unfold left_join_lateral. rewrite list_elem_of_fmap. split.
  - intros [[[(au' & [= -> ->] & Hau) Hd] Hp] Ht]. done.
  - intros (Hau & -> & Hd & Hp & Ht). repeat split; try done. by exists au.
Qed.

(** The rows of the overviews come from the groups. *)
Lemma elem_of_admin_rows st row :
  row ∈ omap admin_select (group_by admin_group_key (admin_from st))
  → ∃ x0,
      x0 ∈ admin_from st
      ∧ admin_select
          (admin_group_key x0,
           filter (λ y, admin_group_key y = admin_group_key x0)
             (admin_from st))
        = Some row.
Proof.
  intros ([k g] & Hg & Hsel)%list_elem_of_omap.
  destruct (group_by_head _ _ _ _ Hg) as (x0 & _ & Hx0 & <-).
  apply elem_of_group_by in Hg as [_ ->]. by exists x0.
Qed.

Section admin_counts.
Context (st : db).
Context (Hau : NoDup (au_id <$> auth_users st)).
Context (Hd : NoDup (d_id <$> depots st)).
Context (Hp : NoDup (p_id <$> positions st)).
Context (Ht : NoDup (t_id <$> transactions st)).

(** Within the [FROM] rows, the group of a row is the set of rows of
    the same user. *)
Lemma admin_group_same_user x0 y :
  x0 ∈ admin_from st → y ∈ admin_from st →
  admin_group_key y = admin_group_key x0 ↔ af_au y = af_au x0.
Proof.
  intros Hx0 Hy.
  apply elem_of_admin_from in Hx0 as (Hx0u & Hx0r & _).
  apply elem_of_admin_from in Hy as (Hyu & Hyr & _).
  unfold admin_group_key. split.
  - intros [= Hid _]. by eapply (key_determines_row au_id).
  - intros Heq. by rewrite Hx0r, Hyr, Heq.
Qed.

Lemma admin_depot_count x0 :
  x0 ∈ admin_from st →
  count_distinct
    ((λ y, d_id <$> af_d y)
       <$> filter (λ y, admin_group_key y = admin_group_key x0)
             (admin_from st))
  = Z.of_nat (length (depots_of st (au_id (af_au x0)))).
Proof.
  intros Hx0. rewrite <- (length_fmap d_id).
  apply count_distinct_spec; [by apply NoDup_fmap_filter|].
  intros z. rewrite !list_elem_of_fmap. split.
  - intros (y & Hz & [Hk Hy]%list_elem_of_filter).
    apply admin_group_same_user in Hk; [|done..].
    apply elem_of_admin_from in Hy as (_ & _ & Hyd & _).
    destruct (af_d y) as [d|]; [|done]. injection Hz as ->.
    exists d. split; [done|]. apply list_elem_of_filter.
    rewrite <- Hk. by destruct Hyd.
  - intros (d & -> & [Hmem Hin]%list_elem_of_filter).
    pose proof Hx0 as (Hu & _)%elem_of_admin_from.
    destruct (partner_total
                (λ p, d_id <$> Some d = Some (p_depot_id p)) (positions st))
      as [op Hop].
    destruct (partner_total
                (λ t, d_id <$> Some d = Some (t_depot_id t))
                (transactions st)) as [ot Hot].
    exists (af_au x0, roles st (af_au x0), Some d, op, ot).
    split; [done|]. apply list_elem_of_filter.
    assert (Hy : (af_au x0, roles st (af_au x0), Some d, op, ot)
                 ∈ admin_from st) by by apply elem_of_admin_from.
    split; [|done]. by apply admin_group_same_user.
Qed.

Lemma admin_position_count x0 :
  x0 ∈ admin_from st →
  count_distinct
    ((λ y, p_id <$> af_p y)
       <$> filter (λ y, admin_group_key y = admin_group_key x0)
             (admin_from st))
  = Z.of_nat (length (positions_of st (au_id (af_au x0)))).
Proof.
  intros Hx0. rewrite <- (length_fmap p_id).
  apply count_distinct_spec; [by apply NoDup_fmap_filter|].
  intros z. rewrite !list_elem_of_fmap. split.
  - intros (y & Hz & [Hk Hy]%list_elem_of_filter).
    apply admin_group_same_user in Hk; [|done..].
    apply elem_of_admin_from in Hy as (_ & _ & Hyd & Hyp & _).
    destruct (af_p y) as [p|]; [|done]. injection Hz as ->.
    destruct Hyp as [Hpin Hpd].
    destruct (af_d y) as [d|]; [|done]. injection Hpd as Hpd.
    exists p. split; [done|]. apply list_elem_of_filter. split; [|done].
    apply Exists_exists. exists d. split; [|done].
    apply list_elem_of_filter. rewrite <- Hk. by destruct Hyd.
  - intros (p & -> & [Hex Hin]%list_elem_of_filter).
    apply Exists_exists in Hex
      as (d & [Hmem Hdin]%list_elem_of_filter & Hdp).
    pose proof Hx0 as (Hu & _)%elem_of_admin_from.
    destruct (partner_total
                (λ t, d_id <$> Some d = Some (t_depot_id t))
                (transactions st)) as [ot Hot].
    exists (af_au x0, roles st (af_au x0), Some d, Some p, ot).
    split; [done|]. apply list_elem_of_filter.
    assert (Hy : (af_au x0, roles st (af_au x0), Some d, Some p, ot)
                 ∈ admin_from st).
    { apply elem_of_admin_from. repeat split; try done.
      simpl. by rewrite Hdp. }
    split; [|done]. by apply admin_group_same_user.
Qed.

Lemma admin_transaction_count x0 :
  x0 ∈ admin_from st →
  count_distinct
    ((λ y, t_id <$> af_t y)
       <$> filter (λ y, admin_group_key y = admin_group_key x0)
             (admin_from st))
  = Z.of_nat (length (transactions_of st (au_id (af_au x0)))).
Proof.
  intros Hx0. rewrite <- (length_fmap t_id).
  apply count_distinct_spec; [by apply NoDup_fmap_filter|].
  intros z. rewrite !list_elem_of_fmap. split.
  - intros (y & Hz & [Hk Hy]%list_elem_of_filter).
    apply admin_group_same_user in Hk; [|done..].
    apply elem_of_admin_from in Hy as (_ & _ & Hyd & _ & Hyt).
    destruct (af_t y) as [t|]; [|done]. injection Hz as ->.
    destruct Hyt as [Htin Htd].
    destruct (af_d y) as [d|]; [|done]. injection Htd as Htd.
    exists t. split; [done|]. apply list_elem_of_filter. split; [|done].
    apply Exists_exists. exists d. split; [|done].
    apply list_elem_of_filter. rewrite <- Hk. by destruct Hyd.
  - intros (t & -> & [Hex Hin]%list_elem_of_filter).
    apply Exists_exists in Hex
      as (d & [Hmem Hdin]%list_elem_of_filter & Hdt).
    pose proof Hx0 as (Hu & _)%elem_of_admin_from.
    destruct (partner_total
                (λ p, d_id <$> Some d = Some (p_depot_id p)) (positions st))
      as [op Hop].
    exists (af_au x0, roles st (af_au x0), Some d, op, Some t).
    split; [done|]. apply list_elem_of_filter.
    assert (Hy : (af_au x0, roles st (af_au x0), Some d, op, Some t)
                 ∈ admin_from st).
    { apply elem_of_admin_from. repeat split; try done.
      simpl. by rewrite Hdt. }
    split; [|done]. by apply admin_group_same_user.
Qed.

Lemma admin_rows_counts_exact row :
  row ∈ omap admin_select (group_by admin_group_key (admin_from st)) →
  admin_counts_exact st row.
Proof.
  intros (x0 & Hx0 & Hsel)%elem_of_admin_rows.
  unfold admin_select in Hsel. simpl in Hsel.
  destruct (head _); [|done]. injection Hsel as <-.
  unfold admin_counts_exact. simpl.
  by rewrite admin_depot_count, admin_position_count,
    admin_transaction_count.
Qed.

Lemma admin_rows_total au :
  au ∈ auth_users st →
  ∃ row, row ∈ omap admin_select (group_by admin_group_key (admin_from st))
         ∧ admin_overview.id row = au_id au.
Proof.
  intros Hin.
  destruct (partner_total (λ d, au_id au ∈ d_users d) (depots st))
    as [od Hod].
  destruct (partner_total
              (λ p, d_id <$> od = Some (p_depot_id p)) (positions st))
    as [op Hop].
  destruct (partner_total
              (λ t, d_id <$> od = Some (t_depot_id t)) (transactions st))
    as [ot Hot].
  assert (Hy : (au, roles st au, od, op, ot) ∈ admin_from st)
    by by apply elem_of_admin_from.
  set (k := admin_group_key (au, roles st au, od, op, ot)).
  assert (Hg : (k, filter (λ y, admin_group_key y = k) (admin_from st))
               ∈ group_by admin_group_key (admin_from st)).
  { apply elem_of_group_by. split; [|done]. by eexists. }
  destruct (group_by_head _ _ _ _ Hg) as (x & Hhead & _).
  eexists. split.
  - apply list_elem_of_omap. eexists. split; [exact Hg|].
    unfold admin_select. simpl. rewrite Hhead. reflexivity.
  - done.
Qed.
End admin_counts.

(** The rows of the [FROM] clause of the depot overview. *)
Lemma elem_of_depot_from st x :
  x ∈ depot_from st
  ↔ df_d x ∈ depots st
    ∧ match df_dt x with
      | Some t => t ∈ transactions st ∧ t_depot_id t = d_id (df_d x)
      | None => ∀ t, t ∈ transactions st → ¬ t_depot_id t = d_id (df_d x)
      end
    ∧ match df_dp x with
      | Some p => p ∈ positions st ∧ p_depot_id p = d_id (df_d x)
      | None => ∀ p, p ∈ positions st → ¬ p_depot_id p = d_id (df_d x)
      end
    ∧ df_u x = members st (df_d x)
    ∧ match df_dsb x with
      | Some b => b ∈ savings_plans_budget st ∧ b_depot_id b = d_id (df_d x)
      | None =>
          ∀ b, b ∈ savings_plans_budget st → ¬ b_depot_id b = d_id (df_d x)
      end.
Proof.
  destruct x as [[[[d odt] odp] u] odsb].
  unfold depot_from, df_d, df_dt, df_dp, df_u, df_dsb. simpl.
  rewrite elem_of_left_join. simpl.
  unfold left_join_lateral. rewrite list_elem_of_fmap. split.
  - intros [(y & [= <- ->] & Hy) Hb].
    simpl in *. apply elem_of_left_join in Hy as [Hy Hp].
    apply elem_of_left_join in Hy as [Hy Ht]. done.
  - intros (Hin & Ht & Hp & -> & Hb). split; [|done].
    exists (d, odt, odp). split; [done|].
    apply elem_of_left_join. split; [|done]. by apply elem_of_left_join.
Qed.

Lemma elem_of_depot_rows st row :
  row ∈ omap depot_select (group_by depot_group_key (depot_from st))
  → ∃ x0,
      x0 ∈ depot_from st
      ∧ depot_select
          (depot_group_key x0,
           filter (λ y, depot_group_key y = depot_group_key x0)
             (depot_from st))
        = Some row.
Proof.
  intros ([k g] & Hg & Hsel)%list_elem_of_omap.
  destruct (group_by_head _ _ _ _ Hg) as (x0 & _ & Hx0 & <-).
  apply elem_of_group_by in Hg as [_ ->]. by exists x0.
Qed.

Section depot_counts.
Context (st : db).
Context (Hd : NoDup (d_id <$> depots st)).
Context (Hp : NoDup (p_id <$> positions st)).
Context (Ht : NoDup (t_id <$> transactions st)).

(** The rows of a group of the depot overview are rows of one depot. *)
Lemma depot_group_same_depot x0 y :
  x0 ∈ depot_from st → y ∈ depot_from st →
  depot_group_key y = depot_group_key x0 → df_d y = df_d x0.
Proof.
  intros (Hx0 & _)%elem_of_depot_from (Hy & _)%elem_of_depot_from.
  unfold depot_group_key. intros [= Hid _].
  by eapply (key_determines_row d_id).
Qed.

(** A row of the depot of [x0] with the budget columns of [x0] is in
    the group of [x0]. *)
Lemma depot_group_member x0 odt odp :
  x0 ∈ depot_from st →
  match odt with
  | Some t => t ∈ transactions st ∧ t_depot_id t = d_id (df_d x0)
  | None => ∀ t, t ∈ transactions st → ¬ t_depot_id t = d_id (df_d x0)
  end →
  match odp with
  | Some p => p ∈ positions st ∧ p_depot_id p = d_id (df_d x0)
  | None => ∀ p, p ∈ positions st → ¬ p_depot_id p = d_id (df_d x0)
  end →
  (df_d x0, odt, odp, members st (df_d x0), df_dsb x0)
  ∈ filter (λ y, depot_group_key y = depot_group_key x0) (depot_from st).
Proof.
  intros (Hin & _ & _ & Hu & Hb)%elem_of_depot_from Hodt Hodp.
  apply list_elem_of_filter. split.
  - unfold depot_group_key. simpl. by rewrite Hu.
  - by apply elem_of_depot_from.
Qed.

Lemma depot_transaction_count x0 :
  x0 ∈ depot_from st →
  count_distinct
    ((λ y, t_id <$> df_dt y)
       <$> filter (λ y, depot_group_key y = depot_group_key x0)
             (depot_from st))
  = Z.of_nat (length (transactions_in st (d_id (df_d x0)))).
Proof.
  intros Hx0. rewrite <- (length_fmap t_id).
  apply count_distinct_spec; [by apply NoDup_fmap_filter|].
  intros z. rewrite !list_elem_of_fmap. split.
  - intros (y & Hz & [Hk Hy]%list_elem_of_filter).
    apply depot_group_same_depot in Hk; [|done..].
    apply elem_of_depot_from in Hy as (_ & Hyt & _).
    destruct (df_dt y) as [t|]; [|done]. injection Hz as ->.
    exists t. split; [done|]. apply list_elem_of_filter.
    rewrite <- Hk. by destruct Hyt.
  - intros (t & -> & [Hmem Hin]%list_elem_of_filter).
    destruct (partner_total
                (λ p, p_depot_id p = d_id (df_d x0)) (positions st))
      as [odp Hodp].
    exists (df_d x0, Some t, odp, members st (df_d x0), df_dsb x0).
    split; [done|]. by apply depot_group_member.
Qed.

Lemma depot_position_count x0 :
  x0 ∈ depot_from st →
  count_distinct
    ((λ y, p_id <$> df_dp y)
       <$> filter (λ y, depot_group_key y = depot_group_key x0)
             (depot_from st))
  = Z.of_nat (length (positions_in st (d_id (df_d x0)))).
Proof.
  intros Hx0. rewrite <- (length_fmap p_id).
  apply count_distinct_spec; [by apply NoDup_fmap_filter|].
  intros z. rewrite !list_elem_of_fmap. split.
  - intros (y & Hz & [Hk Hy]%list_elem_of_filter).
    apply depot_group_same_depot in Hk; [|done..].
    apply elem_of_depot_from in Hy as (_ & _ & Hyp & _).
    destruct (df_dp y) as [p|]; [|done]. injection Hz as ->.
    exists p. split; [done|]. apply list_elem_of_filter.
    rewrite <- Hk. by destruct Hyp.
  - intros (p & -> & [Hmem Hin]%list_elem_of_filter).
    destruct (partner_total
                (λ t, t_depot_id t = d_id (df_d x0)) (transactions st))
      as [odt Hodt].
    exists (df_d x0, odt, Some p, members st (df_d x0), df_dsb x0).
    split; [done|]. by apply depot_group_member.
Qed.

Lemma depot_rows_counts_exact row :
  row ∈ omap depot_select (group_by depot_group_key (depot_from st)) →
  depot_counts_exact st row.
Proof.
  intros (x0 & Hx0 & Hsel)%elem_of_depot_rows.
  unfold depot_select in Hsel. simpl in Hsel.
  destruct (head _); [|done]. injection Hsel as <-.
  unfold depot_counts_exact. simpl.
  by rewrite depot_transaction_count, depot_position_count.
Qed.

Lemma depot_rows_total d :
  d ∈ depots st →
  ∃ row, row ∈ omap depot_select (group_by depot_group_key (depot_from st))
         ∧ depot_overview.id row = d_id d.
Proof.
  intros Hin.
  destruct (partner_total (λ t, t_depot_id t = d_id d) (transactions st))
    as [odt Hodt].
  destruct (partner_total (λ p, p_depot_id p = d_id d) (positions st))
    as [odp Hodp].
  destruct (partner_total (λ b, b_depot_id b = d_id d)
              (savings_plans_budget st)) as [odsb Hodsb].
  assert (Hy : (d, odt, odp, members st d, odsb) ∈ depot_from st)
    by by apply elem_of_depot_from.
  set (k := depot_group_key (d, odt, odp, members st d, odsb)).
  assert (Hg : (k, filter (λ y, depot_group_key y = k) (depot_from st))
               ∈ group_by depot_group_key (depot_from st)).
  { apply elem_of_group_by. split; [|done]. by eexists. }
  destruct (group_by_head _ _ _ _ Hg) as (x & Hhead & _).
  eexists. split.
  - apply list_elem_of_omap. eexists. split; [exact Hg|].
    unfold depot_select. simpl. rewrite Hhead. reflexivity.
  - done.
Qed.
End depot_counts.

(** C6.  When [id] is a key of [auth.users], of [depots.depots], of
    [depots.positions] and of [depots.transactions], the admin overview
    has a row for every user, and the counts of every row of it are the
    number of depots the user belongs to and the numbers of positions and
    of transactions of those depots; the depot overview has a row for
    every depot, and the counts of every row of it are the numbers of
    transactions and of positions of the depot.  The row multiplication
    of the joins does not show in the counts. *)
Theorem overview_counts_are_exact c st rows_a rows_d :
  NoDup (au_id <$> auth_users st) →
  NoDup (d_id <$> depots st) →
  NoDup (p_id <$> positions st) →
  NoDup (t_id <$> transactions st) →
  get_admin_overview c st = Ok rows_a →
  get_depot_overview c st = Ok rows_d →
  (∀ au, au ∈ auth_users st →
         ∃ row, row ∈ rows_a ∧ admin_overview.id row = au_id au)
  ∧ Forall (admin_counts_exact st) rows_a
  ∧ (∀ d, d ∈ depots st →
          ∃ row, row ∈ rows_d ∧ depot_overview.id row = d_id d)
  ∧ Forall (depot_counts_exact st) rows_d.
Proof.
  intros Hau Hd Hp Ht. unfold get_admin_overview, get_depot_overview.
  case_match; [done|]. intros [= <-] [= <-]. repeat split.
  - by apply admin_rows_total.
  - apply Forall_forall. intros row. by apply admin_rows_counts_exact.
  - by apply depot_rows_total.
  - apply Forall_forall. intros row. by apply depot_rows_counts_exact.
Qed.

(** In [classroom] depot 1 has two positions and three transactions, so
    six joined rows; the counts are 2 and 3. *)
Example classroom_overview_counts :
  fmap (M := result)
    (fmap (M := list)
       (λ r, (admin_overview.id r, admin_overview.depot_count r,
              admin_overview.position_count r,
              admin_overview.transaction_count r)))
    (get_admin_overview (as_user 1) classroom)
  = Ok [(1%N, 0, 0, 0); (2%N, 2, 3, 3); (3%N, 1, 2, 3); (4%N, 0, 0, 0)]
  ∧ fmap (M := result)
      (fmap (M := list)
         (λ r, (depot_overview.id r, depot_overview.transaction_count r,
                depot_overview.position_count r)))
      (get_depot_overview (as_user 1) classroom)
    = Ok [(1, 3, 2); (2, 0, 1)].
Proof. split; reflexivity. Qed.

Lemma overview_counts_are_exact_witness :
  ∃ rows_a rows_d,
    get_admin_overview (as_user 1) classroom = Ok rows_a
    ∧ get_depot_overview (as_user 1) classroom = Ok rows_d
    ∧ Forall (admin_counts_exact classroom) rows_a
    ∧ Forall (depot_counts_exact classroom) rows_d.
Proof.
  eexists _, _. split; [reflexivity|]. split; [reflexivity|].
  refine (let H := overview_counts_are_exact (as_user 1) classroom _ _
                     _ _ _ _ eq_refl eq_refl in
          conj (proj1 (proj2 H)) (proj2 (proj2 (proj2 H))));
    apply (bool_decide_unpack _); vm_compute; exact I.
Defined.

(** * Further properties *)

(** ** The role gate *)

(** The role checks read [users.special_roles] and nothing else. *)
Lemma has_role_ext c st st' r :
  special_roles st' = special_roles st → has_role c st' r = has_role c st r.
Proof. unfold has_role. by intros ->. Qed.

Lemma has_any_role_ext c st st' rs :
  special_roles st' = special_roles st →
  has_any_role c st' rs = has_any_role c st rs.
Proof. unfold has_any_role. by intros ->. Qed.

(** X1.  [has_any_role] holds exactly when [has_role] holds for one of the
    roles asked for; in particular it is false for no role at all. *)
Theorem has_any_role_is_some_has_role c st rs :
  (has_any_role c st rs = true ↔ ∃ r, r ∈ rs ∧ has_role c st r = true)
  ∧ has_any_role c st [] = false.
Proof.
  split; [apply has_any_role_spec|].
  apply not_true_is_false. rewrite has_any_role_spec.
  intros (r & Hr & _). by apply elem_of_nil in Hr.
Qed.

(** ** Rewards *)

Lemma sql_update_none {A} (cond : A → Prop) `{!∀ a, Decision (cond a)}
    (set : A → A) (t : list A) :
  (∀ r, r ∈ t → ¬ cond r) → sql_update cond set t = t.
Proof.
  intros Hnone. unfold sql_update.
  induction t as [|r t IH]; [done|]. rewrite fmap_cons.
  rewrite decide_False by (apply Hnone; left).
  f_equal. apply IH. intros r' Hr'. apply Hnone. by right.
Qed.

Lemma sql_update_id {A} (cond : A → Prop) `{!∀ a, Decision (cond a)}
    (t : list A) :
  sql_update cond (λ r, r) t = t.
Proof.
  unfold sql_update. induction t as [|r t IH]; [done|].
  rewrite fmap_cons, IH. by case_decide.
Qed.

Lemma sql_update_update {A} (cond : A → Prop) `{!∀ a, Decision (cond a)}
    (f g h : A → A) (t : list A) :
  (∀ r, cond r → cond (g r)) → (∀ r, cond r → f (g r) = h r) →
  sql_update cond f (sql_update cond g t) = sql_update cond h t.
Proof.
  intros Hkeep Hfg. unfold sql_update. rewrite <- list_fmap_compose.
  apply list_fmap_ext. intros i r _. simpl.
  destruct (decide (cond r)) as [Hc|Hc].
  - rewrite decide_True by by apply Hkeep. by apply Hfg.
  - by rewrite decide_False.
Qed.

(** X2.  The guard of [grant_reward] asks for the teacher role alone: for
    every [INT] amount a caller without it, the administrator included,
    is refused unless the session role is [postgres]. *)
Theorem grant_reward_needs_teacher c st p_depot_id p_amount :
  in_int p_amount →
  has_role c st teacher = false →
  session_user c ≠ "postgres" →
  grant_reward c p_depot_id p_amount st = Err Unauthorized.
Proof.
  intros Hint Ht Hpg. unfold grant_reward.
  rewrite bool_decide_eq_true_2 by done. simpl.
  assert (Hany : has_any_role c st [teacher] = false).
  { apply not_true_is_false. rewrite has_any_role_spec.
    intros (r & ->%list_elem_of_singleton & Hr). congruence. }
  by rewrite Hany, (is_postgres_false Invoker c st Hpg).
Qed.

Lemma grant_reward_needs_teacher_witness :
  has_role (as_user 1) classroom admin = true
  ∧ grant_reward (as_user 1) 1 50 classroom = Err Unauthorized.
Proof.
  split; [reflexivity|].
  apply (grant_reward_needs_teacher (as_user 1) classroom 1 50);
    [by apply (bool_decide_unpack _) | reflexivity
    | vm_compute; discriminate].
Defined.

(** X3.  A reward of an [INT] amount for a depot id that no depot has is
    no error: the [UPDATE] matches no row, the call succeeds and the
    state is as before. *)
Theorem grant_reward_missing_depot_is_silent c st p_depot_id p_amount :
  in_int p_amount →
  has_role c st teacher = true →
  (∀ d, d ∈ depots st → d_id d ≠ p_depot_id) →
  grant_reward c p_depot_id p_amount st = Ok st.
Proof.
  intros Hint Ht Hnone. unfold grant_reward.
  rewrite bool_decide_eq_true_2 by done. simpl.
  assert (Hany : has_any_role c st [teacher] = true).
  { apply has_any_role_spec. exists teacher. split; [left|done]. }
  rewrite Hany. simpl.
  assert (Hover : sql_exists
            (λ d, d_id d = p_depot_id ∧ ¬ in_bigint (cash d + p_amount))
            (depots st) = false).
  { apply sql_exists_false. intros d Hd [Hid _]. by apply (Hnone d). }
  rewrite Hover. f_equal. unfold set_depots.
  rewrite sql_update_none by done. by destruct st.
Qed.

Lemma grant_reward_missing_depot_is_silent_witness :
  grant_reward (as_user 4) 99 50 classroom = Ok classroom.
Proof.
  apply (grant_reward_missing_depot_is_silent (as_user 4) classroom 99 50);
    [by apply (bool_decide_unpack _) | reflexivity |].
  intros d Hd.
  apply (proj1 (Forall_forall (λ d, d_id d ≠ 99) (depots classroom)));
    [|exact Hd].
  repeat constructor; vm_compute; discriminate.
Defined.

Lemma grant_reward_Ok c st st' p_depot_id p_amount :
  grant_reward c p_depot_id p_amount st = Ok st' →
  in_int p_amount
  ∧ (has_any_role c st [teacher] || is_postgres Invoker c st = true)
  ∧ (∀ d, d ∈ depots st → d_id d = p_depot_id →
          in_bigint (cash d + p_amount))
  ∧ st' = set_depots
            (sql_update (λ d, d_id d = p_depot_id) (add_cash p_amount)) st.
Proof.
  unfold grant_reward.
  destruct (bool_decide (in_int p_amount)) eqn:Hint; [simpl|done].
  apply bool_decide_eq_true in Hint.
  destruct (has_any_role c st [teacher] || is_postgres Invoker c st);
    [simpl|done].
  destruct (sql_exists _ (depots st)) eqn:Hover; [done|].
  intros [= <-]. split; [done|]. split; [done|]. split; [|done].
  rewrite sql_exists_false in Hover. intros d Hd Hid.
  destruct (decide (in_bigint (cash d + p_amount))) as [|Hout]; [done|].
  by destruct (Hover d Hd).
Qed.

Lemma grant_reward_Ok_intro c st p_depot_id p_amount :
  in_int p_amount →
  has_any_role c st [teacher] || is_postgres Invoker c st = true →
  (∀ d, d ∈ depots st → d_id d = p_depot_id →
        in_bigint (cash d + p_amount)) →
  grant_reward c p_depot_id p_amount st
  = Ok (set_depots
          (sql_update (λ d, d_id d = p_depot_id) (add_cash p_amount)) st).
Proof.
  intros Hint Hguard Hrange. unfold grant_reward.
  rewrite bool_decide_eq_true_2 by done. simpl. rewrite Hguard. simpl.
  assert (Hover : sql_exists
            (λ d, d_id d = p_depot_id ∧ ¬ in_bigint (cash d + p_amount))
            (depots st) = false).
  { apply sql_exists_false. intros d Hd [Hid Hout]. by apply Hout, Hrange. }
  by rewrite Hover.
Qed.

(** X4.  Two rewards for a depot, one after the other, leave the state
    that one reward of the sum leaves, when the sum is an [INT] and so
    can be granted at once; a sum outside the range of [INT] cannot. *)
Theorem grant_reward_adds_up c st st1 st2 p_depot_id a b :
  grant_reward c p_depot_id a st = Ok st1 →
  grant_reward c p_depot_id b st1 = Ok st2 →
  (in_int (a + b) → grant_reward c p_depot_id (a + b) st = Ok st2)
  ∧ (¬ in_int (a + b) →
     grant_reward c p_depot_id (a + b) st = Err NumericValueOutOfRange).
Proof.
  intros (_ & Hguard & _ & ->)%grant_reward_Ok
         (_ & _ & Hrange & ->)%grant_reward_Ok.
  split.
  - intros Hint. rewrite grant_reward_Ok_intro; [|done..|].
    + f_equal. unfold set_depots. simpl. f_equal.
      symmetry. apply sql_update_update; [done|].
      intros d _. unfold add_cash. simpl. f_equal. lia.
    + intros d Hd Hid. simpl in Hrange.
      specialize (Hrange (add_cash a d)). simpl in Hrange.
      replace (cash d + (a + b)) with (cash d + a + b) by lia.
      apply Hrange; [|done]. unfold sql_update. apply list_elem_of_fmap.
      exists d. by rewrite decide_True.
  - intros Hout. unfold grant_reward. by rewrite bool_decide_eq_false_2.
Qed.

Lemma grant_reward_adds_up_witness :
  (∃ st1 st2,
     grant_reward (as_user 4) 1 50 classroom = Ok st1
     ∧ grant_reward (as_user 4) 1 (-70) st1 = Ok st2
     ∧ grant_reward (as_user 4) 1 (50 + -70) classroom = Ok st2)
  ∧ (∃ st1 st2,
       grant_reward (as_user 4) 1 2147483647 classroom = Ok st1
       ∧ grant_reward (as_user 4) 1 2147483647 st1 = Ok st2
       ∧ grant_reward (as_user 4) 1 (2147483647 + 2147483647) classroom
         = Err NumericValueOutOfRange).
Proof.
  split.
  - eexists _, _. split; [reflexivity|]. split; [reflexivity|].
    eapply (grant_reward_adds_up (as_user 4) classroom);
      [reflexivity | reflexivity | by apply (bool_decide_unpack _)].
  - eexists _, _. split; [reflexivity|]. split; [reflexivity|].
    eapply (grant_reward_adds_up (as_user 4) classroom);
      [reflexivity | reflexivity |].
    vm_compute. intros [_ H]. discriminate H.
Defined.

(** X5.  The opposite reward undoes a reward: when the cash of every
    depot was a [BIGINT] before and [- a] is an [INT] as [a] is, granting
    [a] and then [- a] gives back the state before. *)
Theorem grant_reward_undo c st st1 p_depot_id a :
  (∀ d, d ∈ depots st → in_bigint (cash d)) →
  in_int (- a) →
  grant_reward c p_depot_id a st = Ok st1 →
  grant_reward c p_depot_id (- a) st1 = Ok st.
Proof.
  intros Hcol Hint (_ & Hguard & _ & ->)%grant_reward_Ok.
  rewrite grant_reward_Ok_intro; [|done..|].
  - f_equal. unfold set_depots. simpl.
    rewrite (sql_update_update _ _ _ (λ d, d)); [|done|].
    + rewrite sql_update_id. by destruct st.
    + intros d _. destruct d. unfold add_cash. simpl. f_equal. lia.
  - simpl. unfold sql_update.
    intros d' (d & -> & Hd)%list_elem_of_fmap Hid.
    case_decide; simpl in *; [|done].
    replace (cash d + a + - a) with (cash d) by lia. by apply Hcol.
Qed.

Lemma grant_reward_undo_witness :
  ∃ st1,
    grant_reward (as_user 4) 1 500 classroom = Ok st1
    ∧ (cash <$> depots st1) = [575; 50]
    ∧ grant_reward (as_user 4) 1 (- 500) st1 = Ok classroom.
Proof.
  eexists. split; [reflexivity|]. split; [reflexivity|].
  apply (grant_reward_undo (as_user 4) classroom _ 1 500);
    [|by apply (bool_decide_unpack _) | reflexivity].
  intros d Hd.
  apply (proj1 (Forall_forall (λ d, in_bigint (cash d)) (depots classroom)));
    [|exact Hd].
  repeat constructor; vm_compute; intros H; discriminate H.
Defined.

(** ** Granting and revoking the teacher role *)

Lemma bool_eq_iff (x y : bool) : (x = true ↔ y = true) → x = y.
Proof. destruct x, y; intuition congruence. Qed.

Lemma db_eta st :
  {| owner := owner st;
     auth_users := auth_users st;
     special_roles := special_roles st;
     depots := depots st;
     positions := positions st;
     transactions := transactions st;
     savings_plans := savings_plans st;
     savings_plans_budget := savings_plans_budget st |} = st.
Proof. by destruct st. Qed.

Lemma insert_special_role_Ok now u r st st' :
  insert_special_role now u r st = Ok st' →
  (∀ x, x ∈ special_roles st → ¬ (sr_user_id x = u ∧ user_role x = r))
  ∧ (∃ v, v ∈ auth_users st ∧ au_id v = u)
  ∧ st' = set_special_roles
            (λ t, t ++ [ {| sr_user_id := u; user_role := r;
                            granted_at := now |} ]) st.
Proof.
  unfold insert_special_role.
  destruct (sql_exists _ (special_roles st)) eqn:Hdup; [done|].
  destruct (sql_exists _ (auth_users st)) eqn:Huser; [|done].
  rewrite sql_exists_false in Hdup. rewrite sql_exists_true in Huser.
  by intros [= <-].
Qed.

Lemma grant_teacher_Ok c now u st st' :
  grant_teacher c now u st = Ok st' →
  (has_any_role c st [admin; teacher] || is_postgres Definer c st = true)
  ∧ (∀ x, x ∈ special_roles st → ¬ (sr_user_id x = u ∧ user_role x = teacher))
  ∧ (∃ v, v ∈ auth_users st ∧ au_id v = u)
  ∧ st' = set_auth_users (sql_update (λ _, True) (set_is_super_admin true))
            (set_special_roles
               (λ t, t ++ [ {| sr_user_id := u; user_role := teacher;
                               granted_at := now |} ]) st).
Proof.
  unfold grant_teacher.
  destruct (has_any_role c st [admin; teacher] || is_postgres Definer c st);
    [simpl|done].
  destruct (insert_special_role now u teacher st) as [st1|e] eqn:Hins;
    [|done].
  apply insert_special_role_Ok in Hins as (Hfresh & Huser & ->).
  by intros [= <-].
Qed.

Lemma revoke_teacher_Ok c u st st' :
  revoke_teacher c u st = Ok st' →
  (has_any_role c st [admin; teacher] || is_postgres Definer c st = true)
  ∧ st' = set_auth_users
            (sql_update (λ v, au_id v = u) (set_is_super_admin false))
            (set_special_roles
               (sql_delete (λ r, sr_user_id r = u ∧ user_role r = teacher))
               st).
Proof.
  unfold revoke_teacher.
  destruct (has_any_role c st [admin; teacher] || is_postgres Definer c st);
    [simpl|done].
  by intros [= <-].
Qed.

Lemma revoke_teacher_Ok_intro c u st :
  has_any_role c st [admin; teacher] || is_postgres Definer c st = true →
  revoke_teacher c u st
  = Ok (set_auth_users
          (sql_update (λ v, au_id v = u) (set_is_super_admin false))
          (set_special_roles
             (sql_delete (λ r, sr_user_id r = u ∧ user_role r = teacher))
             st)).
Proof. intros Hguard. unfold revoke_teacher. by rewrite Hguard. Qed.

(** A role check after a role row was added. *)
Lemma has_role_insert c st now u r r' :
  has_role c
    (set_special_roles
       (λ t, t ++ [ {| sr_user_id := u; user_role := r;
                       granted_at := now |} ]) st) r'
  = bool_decide (auth_uid c = Some u ∧ r' = r) || has_role c st r'.
Proof.
  unfold has_role. simpl. destruct (auth_uid c) as [uid|]; [|done].
  apply bool_eq_iff.
  rewrite orb_true_iff, bool_decide_eq_true, !sql_exists_true. split.
  - intros (x & [Hx | ->%list_elem_of_singleton]%elem_of_app & Hid & Hr).
    + right. by exists x.
    + left. simpl in *. by subst.
  - intros [[[= ->] ->] | (x & Hx & Hid & Hr)].
    + eexists. split; [apply elem_of_app; right; left|done].
    + exists x. split; [apply elem_of_app; by left|done].
Qed.

(** A role check after role rows were deleted. *)
Lemma has_role_delete c st u r r' :
  has_role c
    (set_special_roles
       (sql_delete (λ x, sr_user_id x = u ∧ user_role x = r)) st) r'
  = negb (bool_decide (auth_uid c = Some u ∧ r' = r)) && has_role c st r'.
Proof.
  unfold has_role. simpl. destruct (auth_uid c) as [uid|];
    [|by rewrite andb_false_r].
  apply bool_eq_iff.
  rewrite andb_true_iff, negb_true_iff, bool_decide_eq_false,
    !sql_exists_true.
  unfold sql_delete. split.
  - intros (x & [Hkeep Hx]%list_elem_of_filter & Hid & Hr). split.
    + intros [[= ->] ->]. by apply Hkeep.
    + by exists x.
  - intros [Hne (x & Hx & Hid & Hr)]. exists x. split; [|done].
    apply list_elem_of_filter. split; [|done].
    intros [Hu Hrole]. apply Hne. by subst.
Qed.

Lemma has_any_role_mono c st st' rs :
  (∀ r, has_role c st r = true → has_role c st' r = true) →
  has_any_role c st rs = true → has_any_role c st' rs = true.
Proof.
  intros Hmono. rewrite !has_any_role_spec.
  intros (r & Hr & Hhas). exists r. by auto.
Qed.

(** X6.  After [grant_teacher] succeeded for a user, that user passes the
    teacher check and every other role check answers as before. *)
Theorem grant_teacher_role_checks c now u st st' c' r :
  grant_teacher c now u st = Ok st' →
  has_role c' st' r
  = bool_decide (auth_uid c' = Some u ∧ r = teacher) || has_role c' st r.
Proof.
  intros (_ & _ & _ & ->)%grant_teacher_Ok.
  rewrite <- (has_role_insert c' st now u teacher r). by apply has_role_ext.
Qed.

Lemma grant_teacher_role_checks_witness :
  ∃ st',
    grant_teacher (as_user 1) 7 2%N classroom = Ok st'
    ∧ has_role (as_user 2) st' teacher = true
    ∧ has_role (as_user 2) st' admin = false
    ∧ has_role (as_user 3) st' teacher = false.
Proof.
  eexists. split; [reflexivity|].
  rewrite !(grant_teacher_role_checks (as_user 1) 7 2%N classroom _ _ _
              eq_refl).
  repeat split; reflexivity.
Defined.

(** X7.  After [revoke_teacher] for a user, that user fails the teacher check
    and every other role check answers as before. *)
Theorem revoke_teacher_role_checks c u st st' c' r :
  revoke_teacher c u st = Ok st' →
  has_role c' st' r
  = negb (bool_decide (auth_uid c' = Some u ∧ r = teacher))
    && has_role c' st r.
Proof.
  intros (_ & ->)%revoke_teacher_Ok.
  rewrite <- (has_role_delete c' st u teacher r). by apply has_role_ext.
Qed.

Lemma revoke_teacher_role_checks_witness :
  ∃ st',
    revoke_teacher (as_user 1) 4%N classroom = Ok st'
    ∧ has_role (as_user 4) st' teacher = false
    ∧ has_role (as_user 1) st' admin = true.
Proof.
  eexists. split; [reflexivity|].
  rewrite !(revoke_teacher_role_checks (as_user 1) 4%N classroom _ _ _
              eq_refl).
  repeat split; reflexivity.
Defined.

(** X9.  [grant_teacher] for an id that no user has fails on the foreign key
    to [auth.users], whoever asks. *)
Theorem grant_teacher_unknown_user c now u st :
  constraints_hold st →
  has_any_role c st [admin; teacher] || is_postgres Definer c st = true →
  (∀ v, v ∈ auth_users st → au_id v ≠ u) →
  grant_teacher c now u st = Err ForeignKeyViolation.
Proof.
  intros Hwf Hguard Hnone. unfold grant_teacher. rewrite Hguard. simpl.
  unfold insert_special_role.
  assert (Hdup : sql_exists (λ r, sr_user_id r = u ∧ user_role r = teacher)
                   (special_roles st) = false).
  { apply sql_exists_false. intros r Hr [Hid _].
    destruct (special_roles_fkey st Hwf r Hr) as (v & Hv & Hvid).
    apply (Hnone v Hv). congruence. }
  assert (Huser : sql_exists (λ v, au_id v = u) (auth_users st) = false).
  { apply sql_exists_false. intros v Hv Hid. by apply (Hnone v). }
  by rewrite Hdup, Huser.
Qed.

Lemma classroom_constraints : constraints_hold classroom.
Proof.
  split.
  - apply (bool_decide_unpack _). vm_compute. exact I.
  - intros r Hr. apply Exists_exists. revert r Hr. apply Forall_forall.
    apply (bool_decide_unpack _). vm_compute. exact I.
  - apply (bool_decide_unpack _). vm_compute. exact I.
  - intros b Hb. apply Exists_exists. revert b Hb. apply Forall_forall.
    apply (bool_decide_unpack _). vm_compute. exact I.
Defined.

Lemma grant_teacher_unknown_user_witness :
  grant_teacher (as_user 1) 7 9%N classroom = Err ForeignKeyViolation.
Proof.
  apply (grant_teacher_unknown_user (as_user 1) 7 9%N classroom);
    [exact classroom_constraints | reflexivity |].
  intros v Hv.
  apply (proj1 (Forall_forall (λ v, au_id v ≠ 9%N) (auth_users classroom)));
    [|exact Hv].
  repeat constructor; vm_compute; discriminate.
Defined.

(** X10.  Granting the teacher role and revoking it again gives back the role
    table; the elevated flag is not given back: it is cleared for the
    user and stays set for every other user. *)
Theorem grant_then_revoke_teacher c now u st st1 :
  grant_teacher c now u st = Ok st1 →
  ∃ st2,
    revoke_teacher c u st1 = Ok st2
    ∧ special_roles st2 = special_roles st
    ∧ (au_id <$> auth_users st2) = (au_id <$> auth_users st)
    ∧ Forall (λ v, is_super_admin v = bool_decide (au_id v ≠ u))
        (auth_users st2).
Proof.
  intros Hgrant.
  pose proof Hgrant as (Hguard & Hfresh & _ & ->)%grant_teacher_Ok.
  eexists. split.
  { apply revoke_teacher_Ok_intro.
    apply orb_true_iff in Hguard as [Hany | Hpg]; apply orb_true_iff;
      [left|by right].
    apply (has_any_role_mono c st); [|done]. intros r Hr.
    rewrite (has_role_ext c
               (set_special_roles
                  (λ t, t ++ [ {| sr_user_id := u; user_role := teacher;
                                  granted_at := now |} ]) st)) by done.
    rewrite (has_role_insert c st now u teacher r), Hr.
    by rewrite orb_true_r. }
  simpl. split; [|split].
  - unfold sql_delete. rewrite filter_app, filter_all.
    + rewrite filter_cons_False, filter_nil, app_nil_r; [done|].
      simpl. by intros Hn; apply Hn.
    + done.
  - unfold sql_update. rewrite <- !list_fmap_compose.
    apply list_fmap_ext. intros i v _. simpl. by repeat case_decide.
  - apply Forall_forall. unfold sql_update.
    intros v' (v1 & -> & (v & -> & Hv)%list_elem_of_fmap)%list_elem_of_fmap.
    rewrite (decide_True (P := True)) by done. simpl.
    case_decide; simpl.
    + by rewrite bool_decide_eq_false_2 by (by intros Hn; apply Hn).
    + by rewrite bool_decide_eq_true_2.
Qed.

Lemma grant_then_revoke_teacher_witness :
  ∃ st1 st2,
    grant_teacher (as_user 1) 7 2%N classroom = Ok st1
    ∧ revoke_teacher (as_user 1) 2%N st1 = Ok st2
    ∧ special_roles st2 = special_roles classroom
    ∧ (is_super_admin <$> auth_users st2) = [true; false; true; true].
Proof.
  eexists.
  destruct (grant_then_revoke_teacher (as_user 1) 7 2%N classroom _ eq_refl)
    as (st2 & Hrevoke & Hroles & _ & _).
  exists st2. split; [reflexivity|]. split; [exact Hrevoke|].
  split; [exact Hroles|].
  vm_compute in Hrevoke. injection Hrevoke as <-. reflexivity.
Defined.

(** X12.  [revoke_teacher] is idempotent, and it is no error to revoke a role
    the user does not hold: a second call that passes the guard succeeds
    and leaves the state of the first. *)
Theorem revoke_teacher_idempotent c c' u st st1 :
  revoke_teacher c u st = Ok st1 →
  has_any_role c' st1 [admin; teacher] || is_postgres Definer c' st1 = true →
  revoke_teacher c' u st1 = Ok st1.
Proof.
  intros (_ & ->)%revoke_teacher_Ok Hguard.
  rewrite revoke_teacher_Ok_intro by done. f_equal.
  unfold set_auth_users, set_special_roles. simpl. f_equal.
  - apply sql_update_update; [done|]. by intros [].
  - unfold sql_delete. rewrite list_filter_filter.
    apply list_filter_iff. tauto.
Qed.

Lemma revoke_teacher_idempotent_witness :
  ∃ st1,
    revoke_teacher (as_user 1) 3%N classroom = Ok st1
    ∧ special_roles st1 = special_roles classroom
    ∧ revoke_teacher (as_user 1) 3%N st1 = Ok st1.
Proof.
  eexists. split; [reflexivity|]. split; [reflexivity|].
  apply (revoke_teacher_idempotent (as_user 1) (as_user 1) 3%N classroom);
    reflexivity.
Defined.

(** ** What the calls leave alone *)

Lemma exec_frame k st st' :
  exec k st = Ok st' →
  owner st' = owner st
  ∧ positions st' = positions st
  ∧ transactions st' = transactions st
  ∧ savings_plans st' = savings_plans st
  ∧ (au_id <$> auth_users st') = (au_id <$> auth_users st)
  ∧ ((λ d, (d_id d, cash_start d, d_users d)) <$> depots st')
    = ((λ d, (d_id d, cash_start d, d_users d)) <$> depots st).
Proof.
  destruct k; simpl.
  - intros (_ & _ & _ & ->)%grant_teacher_Ok. simpl. repeat split.
    unfold sql_update. rewrite <- list_fmap_compose.
    apply list_fmap_ext. intros i v _. simpl. by repeat case_decide.
  - intros (_ & ->)%revoke_teacher_Ok. simpl. repeat split.
    unfold sql_update. rewrite <- list_fmap_compose.
    apply list_fmap_ext. intros i v _. simpl. by repeat case_decide.
  - unfold change_budget. repeat case_match; try done; by intros [= <-].
  - intros (_ & _ & _ & ->)%grant_reward_Ok. simpl. repeat split.
    unfold sql_update. rewrite <- list_fmap_compose.
    apply list_fmap_ext. intros i v _. simpl. by repeat case_decide.
Qed.

(** X13.  No sequence of calls of the role API, [change_budget] and
    [grant_reward] adds or removes a user or a depot, or changes a
    position, a ledger entry, a savings plan, the members or the
    [cash_start] of a depot. *)
Theorem calls_leave_the_rest ks st :
  positions (run ks st) = positions st
  ∧ transactions (run ks st) = transactions st
  ∧ savings_plans (run ks st) = savings_plans st
  ∧ (au_id <$> auth_users (run ks st)) = (au_id <$> auth_users st)
  ∧ ((λ d, (d_id d, cash_start d, d_users d)) <$> depots (run ks st))
    = ((λ d, (d_id d, cash_start d, d_users d)) <$> depots st).
Proof.
  revert st. induction ks as [|k ks IH]; intros st; [done|].
  change (run (k :: ks) st) with (run ks (commit (exec k st) st)).
  destruct (IH (commit (exec k st) st)) as (-> & -> & -> & -> & ->).
  destruct (exec k st) as [st'|e] eqn:Hexec; [|done]. simpl.
  by destruct (exec_frame k st st' Hexec) as (_ & -> & -> & -> & -> & ->).
Qed.

(** ** The constraints are kept *)

Lemma exists_elem_of_fmap {A B} (f : A → B) (l : list A) (y : B) :
  (∃ x, x ∈ l ∧ f x = y) ↔ y ∈ f <$> l.
Proof.
  rewrite list_elem_of_fmap. split.
  - intros (x & Hx & <-). by exists x.
  - intros (x & -> & Hx). by exists x.
Qed.

Lemma sql_update_fmap_key {A B} (cond : A → Prop)
    `{!∀ a, Decision (cond a)} (set : A → A) (key : A → B) (t : list A) :
  (∀ r, key (set r) = key r) →
  key <$> sql_update cond set t = key <$> t.
Proof.
  intros Hkey. unfold sql_update. rewrite <- list_fmap_compose.
  apply list_fmap_ext. intros i r _. simpl. by case_decide.
Qed.

Lemma insert_special_role_constraints now u r st st' :
  constraints_hold st → insert_special_role now u r st = Ok st' →
  constraints_hold st'.
Proof.
  intros [Hpk Hfk Hbpk Hbfk] (Hfresh & Huser & ->)%insert_special_role_Ok.
  split; simpl; [| |done..].
  - rewrite fmap_app. apply NoDup_app. split; [done|]. split.
    + intros k (x & -> & Hx)%list_elem_of_fmap [= Hu Hr]%list_elem_of_singleton.
      by apply (Hfresh x Hx).
    + apply NoDup_singleton.
  - intros x [Hx | ->%list_elem_of_singleton]%elem_of_app; [by apply Hfk|].
    done.
Qed.

Lemma exec_constraints k st st' :
  constraints_hold st → exec k st = Ok st' → constraints_hold st'.
Proof.
  intros Hwf. destruct k as [c now u | c u | c now i a | c i a]; simpl.
  - unfold grant_teacher. case_match; [done|].
    destruct (insert_special_role now u teacher st) as [st1|]
      eqn:Hins; [|done].
    intros [= <-].
    destruct (insert_special_role_constraints _ _ _ _ _ Hwf Hins)
      as [Hpk Hfk Hbpk Hbfk].
    split; simpl; [done| |done..].
    intros x Hx. apply exists_elem_of_fmap.
    rewrite sql_update_fmap_key by done. by apply exists_elem_of_fmap, Hfk.
  - intros (_ & ->)%revoke_teacher_Ok.
    destruct Hwf as [Hpk Hfk Hbpk Hbfk]. split; simpl; [| |done..].
    + by apply NoDup_fmap_filter.
    + intros x [_ Hx]%list_elem_of_filter. apply exists_elem_of_fmap.
      rewrite sql_update_fmap_key by done. by apply exists_elem_of_fmap, Hfk.
  - destruct Hwf as [Hpk Hfk Hbpk Hbfk]. unfold change_budget.
    do 2 (case_match; [done|]).
    destruct (sql_exists _ (savings_plans_budget st)) eqn:Hrow.
    + intros [= <-]. split; simpl; [done..| |].
      * by rewrite sql_update_fmap_key.
      * intros b Hb. apply exists_elem_of_fmap.
        assert (Hin : b_depot_id b ∈ b_depot_id <$> savings_plans_budget st).
        { rewrite <- (sql_update_fmap_key (λ b, b_depot_id b = i)
                       (λ b, {| b_depot_id := b_depot_id b;
                                budget := a;
                                last_changed := now |})) by done.
          by apply list_elem_of_fmap_2. }
        apply list_elem_of_fmap in Hin as (b0 & -> & Hb0).
        by apply exists_elem_of_fmap, Hbfk.
    + destruct (sql_exists _ (depots st)) eqn:Hdepot; [|done].
      rewrite sql_exists_false in Hrow. rewrite sql_exists_true in Hdepot.
      intros [= <-]. split; simpl; [done..| |].
      * rewrite fmap_app. apply NoDup_app. split; [done|]. split.
        -- intros j (b & -> & Hb)%list_elem_of_fmap Hj%list_elem_of_singleton.
           by apply (Hrow b Hb).
        -- apply NoDup_singleton.
      * intros b [Hb | ->%list_elem_of_singleton]%elem_of_app;
          [by apply Hbfk|done].
  - intros (_ & _ & _ & ->)%grant_reward_Ok.
    destruct Hwf as [Hpk Hfk Hbpk Hbfk]. split; simpl; [done..|].
    intros b Hb. apply exists_elem_of_fmap.
    rewrite sql_update_fmap_key by done. by apply exists_elem_of_fmap, Hbfk.
Qed.

(** X14.  The primary keys and foreign keys of [users.special_roles] and of
    [depots.savings_plans_budget] hold after every sequence of calls of
    the role API, [change_budget] and [grant_reward] when they held
    before: no call leaves two rows for one (user, role) or for one depot,
    or a row for a user or depot that does not exist. *)
Theorem calls_keep_constraints ks st :
  constraints_hold st → constraints_hold (run ks st).
Proof.
  revert st. induction ks as [|k ks IH]; intros st Hwf; [done|].
  change (run (k :: ks) st) with (run ks (commit (exec k st) st)).
  apply IH. destruct (exec k st) as [st'|e] eqn:Hexec; [|done].
  by apply (exec_constraints k st).
Qed.

Lemma calls_keep_constraints_witness :
  constraints_hold
    (run [GrantTeacher (as_user 1) 7 2%N;
          GrantTeacher (as_user 1) 8 2%N;
          ChangeBudget (as_user 4) 9 2 80;
          RevokeTeacher (as_user 2) 4%N;
          GrantReward (as_user 2) 1 10] classroom).
Proof.
  apply (calls_keep_constraints
           [GrantTeacher (as_user 1) 7 2%N;
            GrantTeacher (as_user 1) 8 2%N;
            ChangeBudget (as_user 4) 9 2 80;
            RevokeTeacher (as_user 2) 4%N;
            GrantReward (as_user 2) 1 10] classroom).
  exact classroom_constraints.
Defined.

(** ** Changing the budget: lookup, overwriting, missing depot *)

Lemma change_budget_Ok c now i a st st' :
  change_budget c now i a st = Ok st' →
  (bypasses_rls c st || bool_decide (session_user c = "authenticated") = true)
  ∧ (bypasses_rls c st || has_role c st teacher = true)
  ∧ ((sql_exists (λ b, b_depot_id b = i) (savings_plans_budget st) = true
      ∧ st' = set_savings_plans_budget
                (sql_update (λ b, b_depot_id b = i)
                   (λ b, {| b_depot_id := b_depot_id b; budget := a;
                            last_changed := now |})) st)
     ∨ (sql_exists (λ b, b_depot_id b = i) (savings_plans_budget st) = false
        ∧ sql_exists (λ d, d_id d = i) (depots st) = true
        ∧ st' = set_savings_plans_budget
                  (λ t, t ++ [ {| b_depot_id := i; budget := a;
                                  last_changed := now |} ]) st)).
Proof.
  unfold change_budget.
  destruct (bypasses_rls c st || bool_decide (session_user c = "authenticated"));
    [simpl|done].
  destruct (bypasses_rls c st || has_role c st teacher); [simpl|done].
  destruct (sql_exists _ (savings_plans_budget st)) eqn:Hrow.
  - intros [= <-]. split; [done|]. split; [done|]. by left.
  - destruct (sql_exists _ (depots st)) eqn:Hdepot; [|done].
    intros [= <-]. split; [done|]. split; [done|]. by right.
Qed.

Lemma filter_sql_update_other {A B} `{EqDecision B} (key : A → B)
    (set : A → A) (i j : B) (t : list A) :
  (∀ r, key (set r) = key r) → j ≠ i →
  filter (λ r, key r = j) (sql_update (λ r, key r = i) set t)
  = filter (λ r, key r = j) t.
Proof.
  intros Hkey Hne. unfold sql_update.
  induction t as [|r t IH]; [done|]. rewrite fmap_cons, !filter_cons, IH.
  destruct (decide (key r = i)) as [Hi|Hi].
  - rewrite Hkey. by rewrite !decide_False by congruence.
  - done.
Qed.

Lemma filter_sql_update_same {A B} `{EqDecision B} (key : A → B)
    (set : A → A) (i : B) (t : list A) :
  (∀ r, key (set r) = key r) →
  filter (λ r, key r = i) (sql_update (λ r, key r = i) set t)
  = set <$> filter (λ r, key r = i) t.
Proof.
  intros Hkey. unfold sql_update.
  induction t as [|r t IH]; [done|]. rewrite fmap_cons, !filter_cons, IH.
  destruct (decide (key r = i)) as [Hi|Hi].
  - rewrite Hkey. by rewrite decide_True.
  - by rewrite decide_False.
Qed.

(** A key column has at most one row for a value. *)
Lemma filter_key_length {A B} `{EqDecision B} (key : A → B) (i : B)
    (t : list A) :
  NoDup (key <$> t) → (length (filter (λ r, key r = i) t) ≤ 1)%nat.
Proof.
  induction t as [|r t IH]; [simpl; lia|].
  rewrite fmap_cons, NoDup_cons. intros [Hfresh Hnd].
  rewrite filter_cons. destruct (decide (key r = i)) as [Hi|Hi]; [|by apply IH].
  rewrite filter_none; [simpl; lia|].
  intros x Hx Hxi. apply Hfresh. rewrite Hi, <- Hxi.
  by apply list_elem_of_fmap_2.
Qed.

(** X15.  After [change_budget] succeeded the budget of the depot is the new
    amount, the budget of every other depot is as before, and, the
    primary key holding before, the depot has exactly one budget row. *)
Theorem change_budget_lookup c now i a st st' :
  constraints_hold st →
  change_budget c now i a st = Ok st' →
  budget_of st' i = Some a
  ∧ (∀ j, j ≠ i → budget_of st' j = budget_of st j)
  ∧ filter (λ b, b_depot_id b = i) (savings_plans_budget st')
    = [ {| b_depot_id := i; budget := a; last_changed := now |} ].
Proof.
  intros [_ _ Hbpk _] (_ & _ & Hcases)%change_budget_Ok.
  unfold budget_of.
  destruct Hcases as [(Hrow & ->) | (Hrow & _ & ->)]; simpl.
  - rewrite filter_sql_update_same by done.
    apply sql_exists_true in Hrow as (b & Hb & Hbi).
    pose proof (filter_key_length b_depot_id i _ Hbpk) as Hlen.
    assert (Hin : b ∈ filter (λ b, b_depot_id b = i) (savings_plans_budget st))
      by by apply list_elem_of_filter.
    destruct (filter (λ b, b_depot_id b = i) (savings_plans_budget st))
      as [|b0 [|b1 l]] eqn:Hf; [by apply elem_of_nil in Hin| |simpl in Hlen; lia].
    assert (Hb0 : b_depot_id b0 = i).
    { apply (list_elem_of_filter (λ b, b_depot_id b = i)
               (savings_plans_budget st) b0).
      rewrite Hf. left. }
    simpl. rewrite Hb0. split; [done|]. split; [|done].
    intros j Hj. by rewrite filter_sql_update_other.
  - rewrite sql_exists_false in Hrow.
    rewrite filter_app, (filter_none (λ b, b_depot_id b = i)) by done.
    rewrite filter_cons_True by done. simpl. split; [done|]. split; [|done].
    intros j Hj. rewrite filter_app.
    rewrite (filter_cons_False _ _ []) by (simpl; congruence).
    by rewrite filter_nil, app_nil_r.
Qed.

Lemma change_budget_lookup_witness :
  ∃ st',
    change_budget (as_user 4) 9 2 80 classroom = Ok st'
    ∧ budget_of st' 2 = Some 80
    ∧ budget_of st' 1 = Some 250.
Proof.
  eexists. split; [reflexivity|].
  destruct (change_budget_lookup (as_user 4) 9 2 80 classroom _
              classroom_constraints eq_refl) as (Hi & Hother & _).
  split; [exact Hi|]. rewrite (Hother 1); [reflexivity | discriminate].
Defined.

(** X16.  [change_budget] overwrites: of two calls for a depot, one after the
    other, the first leaves no trace. *)
Theorem change_budget_overwrites c now1 now2 i a b st st1 :
  change_budget c now1 i a st = Ok st1 →
  change_budget c now2 i b st1 = change_budget c now2 i b st.
Proof.
  intros (Hg1 & Hg2 & Hcases)%change_budget_Ok.
  assert (Hr : ∀ st', special_roles st' = special_roles st →
                      owner st' = owner st →
                      bypasses_rls c st' = bypasses_rls c st
                      ∧ has_role c st' teacher = has_role c st teacher).
  { intros st' Hroles Howner. split; [|by apply has_role_ext].
    unfold bypasses_rls. by rewrite Howner. }
  destruct Hcases as [(Hrow & ->) | (Hrow & Hdepot & ->)].
  - destruct (Hr (set_savings_plans_budget
                    (sql_update (λ b, b_depot_id b = i)
                       (λ b, {| b_depot_id := b_depot_id b; budget := a;
                                last_changed := now1 |})) st))
      as [Hb Ht]; [done..|].
    unfold change_budget. rewrite Hb, Ht, Hg1, Hg2. simpl. rewrite Hrow.
    assert (Hrow' : sql_exists (λ b, b_depot_id b = i)
              (sql_update (λ b, b_depot_id b = i)
                 (λ b, {| b_depot_id := b_depot_id b; budget := a;
                          last_changed := now1 |})
                 (savings_plans_budget st)) = true).
    { apply sql_exists_true in Hrow as (x & Hx & Hxi). apply sql_exists_true.
      eexists. split.
      - unfold sql_update. apply list_elem_of_fmap. by exists x.
      - by rewrite decide_True. }
    rewrite Hrow'. f_equal. unfold set_savings_plans_budget. simpl. f_equal.
    by apply sql_update_update.
  - destruct (Hr (set_savings_plans_budget
                    (λ t, t ++ [ {| b_depot_id := i; budget := a;
                                    last_changed := now1 |} ]) st))
      as [Hb Ht]; [done..|].
    unfold change_budget. rewrite Hb, Ht, Hg1, Hg2. simpl.
    rewrite Hrow, Hdepot.
    assert (Hrow' : sql_exists (λ b, b_depot_id b = i)
              (savings_plans_budget st
               ++ [ {| b_depot_id := i; budget := a;
                       last_changed := now1 |} ]) = true).
    { apply sql_exists_true. eexists.
      split; [apply elem_of_app; right; left|done]. }
    rewrite Hrow'. f_equal. unfold set_savings_plans_budget. simpl. f_equal.
    rewrite sql_exists_false in Hrow.
    unfold sql_update. rewrite fmap_app. f_equal.
    + by apply sql_update_none.
    + simpl. by rewrite decide_True.
Qed.

Lemma change_budget_overwrites_witness :
  ∃ st1,
    change_budget (as_user 4) 9 2 80 classroom = Ok st1
    ∧ change_budget (as_user 4) 10 2 120 st1
      = change_budget (as_user 4) 10 2 120 classroom.
Proof.
  eexists. split; [reflexivity|].
  apply (change_budget_overwrites (as_user 4) 9 10 2 80 120 classroom).
  reflexivity.
Defined.

(** X17.  [change_budget] for a depot id that no depot has fails on the foreign
    key to [depots.depots], also for a teacher. *)
Theorem change_budget_missing_depot c now i a st :
  constraints_hold st →
  session_user c = "authenticated" →
  has_role c st teacher = true →
  (∀ d, d ∈ depots st → d_id d ≠ i) →
  change_budget c now i a st = Err ForeignKeyViolation.
Proof.
  intros [_ _ _ Hbfk] Hrole Ht Hnone. unfold change_budget.
  rewrite Hrole, Ht, bool_decide_eq_true_2, !orb_true_r by done. simpl.
  assert (Hrow : sql_exists (λ b, b_depot_id b = i)
                   (savings_plans_budget st) = false).
  { apply sql_exists_false. intros b Hb Hbi.
    destruct (Hbfk b Hb) as (d & Hd & Hdi). apply (Hnone d Hd). congruence. }
  assert (Hdepot : sql_exists (λ d, d_id d = i) (depots st) = false).
  { apply sql_exists_false. intros d Hd Hdi. by apply (Hnone d). }
  by rewrite Hrow, Hdepot.
Qed.

Lemma change_budget_missing_depot_witness :
  change_budget (as_user 4) 9 99 80 classroom = Err ForeignKeyViolation.
Proof.
  apply (change_budget_missing_depot (as_user 4) 9 99 80 classroom);
    [exact classroom_constraints | reflexivity | reflexivity |].
  intros d Hd.
  apply (proj1 (Forall_forall (λ d, d_id d ≠ 99) (depots classroom)));
    [|exact Hd].
  repeat constructor; vm_compute; discriminate.
Defined.

(** ** Granting and revoking a role directly *)

(** X18.  For a caller connected as [authenticated], [grant_role] is the
    administrator's: without the admin role it is refused by row-level
    security, also for a teacher; with it, a role for an existing user
    who does not hold it yet is granted, and that user passes the role
    check from then on. *)
Theorem grant_role_admin_only c now u r st :
  session_user c = "authenticated" →
  bypasses_rls c st = false →
  (has_role c st admin = false →
   grant_role c now u r st = Err RlsViolation)
  ∧ (has_role c st admin = true →
     (∃ v, v ∈ auth_users st ∧ au_id v = u) →
     (∀ x, x ∈ special_roles st → ¬ (sr_user_id x = u ∧ user_role x = r)) →
     ∃ st', grant_role c now u r st = Ok st'
            ∧ ∀ c', auth_uid c' = Some u → has_role c' st' r = true).
Proof.
  intros Hrole Hrls. unfold grant_role, may_use_special_roles.
  rewrite Hrls, Hrole, bool_decide_eq_true_2 by done. simpl. split.
  - by intros ->.
  - intros -> Huser Hfresh. simpl. unfold insert_special_role.
    assert (Hdup : sql_exists (λ x, sr_user_id x = u ∧ user_role x = r)
                     (special_roles st) = false) by by apply sql_exists_false.
    assert (Hex : sql_exists (λ v, au_id v = u) (auth_users st) = true)
      by by apply sql_exists_true.
    rewrite Hdup, Hex. eexists. split; [done|].
    intros c' Huid. rewrite has_role_insert.
    by rewrite bool_decide_eq_true_2.
Qed.

Lemma grant_role_admin_only_witness :
  grant_role (as_user 4) 7 2%N teacher classroom = Err RlsViolation
  ∧ ∃ st', grant_role (as_user 1) 7 2%N teacher classroom = Ok st'
           ∧ ∀ c', auth_uid c' = Some 2%N → has_role c' st' teacher = true.
Proof.
  split.
  - apply (grant_role_admin_only (as_user 4) 7 2%N teacher classroom);
      reflexivity.
  - apply (grant_role_admin_only (as_user 1) 7 2%N teacher classroom);
      [reflexivity | reflexivity | reflexivity | |].
    + apply Exists_exists. apply (bool_decide_unpack _). vm_compute. exact I.
    + apply Forall_forall. apply (bool_decide_unpack _). vm_compute. exact I.
Defined.

Lemma set_special_roles_same f st :
  f (special_roles st) = special_roles st → set_special_roles f st = st.
Proof. intros Hf. unfold set_special_roles. rewrite Hf. by destruct st. Qed.

(** X19.  [revoke_role] never refuses a caller connected as [authenticated]:
    without the admin role no row passes the [DELETE] policy, the call
    succeeds and removes nothing. *)
Theorem revoke_role_without_admin_is_silent c u r st :
  session_user c = "authenticated" →
  bypasses_rls c st = false →
  has_role c st admin = false →
  revoke_role c u r st = Ok st.
Proof.
  intros Hrole Hrls Hadmin. unfold revoke_role, may_use_special_roles.
  rewrite Hrls, Hrole, bool_decide_eq_true_2 by done. simpl. f_equal.
  apply set_special_roles_same. unfold sql_delete. apply filter_all.
  intros x _ (_ & _ & Hdel). unfold can_delete_role in Hdel.
  by rewrite Hrls, Hadmin in Hdel.
Qed.

Lemma revoke_role_without_admin_is_silent_witness :
  has_role (as_user 4) classroom teacher = true
  ∧ revoke_role (as_user 4) 1%N admin classroom = Ok classroom.
Proof.
  split; [reflexivity|].
  apply (revoke_role_without_admin_is_silent (as_user 4) 1%N admin classroom);
    reflexivity.
Defined.

(** X20.  An administrator connected as [authenticated] who is no teacher reads
    only the role rows of their own account: [revoke_role] for another
    user succeeds and removes nothing. *)
Theorem revoke_role_admin_reads_own_rows c u r st :
  session_user c = "authenticated" →
  bypasses_rls c st = false →
  has_role c st teacher = false →
  auth_uid c ≠ Some u →
  revoke_role c u r st = Ok st.
Proof.
  intros Hrole Hrls Hteacher Hother. unfold revoke_role, may_use_special_roles.
  rewrite Hrls, Hrole, bool_decide_eq_true_2 by done. simpl. f_equal.
  apply set_special_roles_same. unfold sql_delete. apply filter_all.
  intros x _ ([Hid _] & Hsel & _). unfold can_select_role in Hsel.
  rewrite Hrls, Hteacher, bool_decide_eq_false_2 in Hsel; [done|].
  by rewrite Hid.
Qed.

Lemma revoke_role_admin_reads_own_rows_witness :
  has_role (as_user 1) classroom admin = true
  ∧ revoke_role (as_user 1) 4%N teacher classroom = Ok classroom.
Proof.
  split; [reflexivity|].
  apply (revoke_role_admin_reads_own_rows (as_user 1) 4%N teacher classroom);
    [reflexivity | reflexivity | reflexivity | discriminate].
Defined.

(** X21.  An administrator connected as [authenticated] who is also a teacher,
    or who revokes a role of their own account, removes the role: the
    user fails that role check afterwards and every other role check
    answers as before. *)
Theorem revoke_role_removes c u r st :
  session_user c = "authenticated" →
  has_role c st admin = true →
  has_role c st teacher = true ∨ auth_uid c = Some u →
  ∃ st', revoke_role c u r st = Ok st'
         ∧ ∀ c' r', has_role c' st' r'
                    = negb (bool_decide (auth_uid c' = Some u ∧ r' = r))
                      && has_role c' st r'.
Proof.
  intros Hrole Hadmin Hreach. unfold revoke_role, may_use_special_roles.
  rewrite Hrole, bool_decide_eq_true_2, orb_true_r by done. simpl.
  eexists. split; [done|]. intros c' r'.
  rewrite <- (has_role_delete c' st u r r'). apply has_role_ext. simpl.
  unfold sql_delete. apply list_filter_iff. intros x.
  assert (Hdel : can_delete_role c st = true).
  { unfold can_delete_role. by rewrite Hadmin, orb_true_r. }
  split.
  - intros Hkeep Hx. apply Hkeep. split; [done|]. split; [|done].
    unfold can_select_role. destruct Hreach as [-> | ->].
    + by rewrite orb_true_r.
    + destruct Hx as [-> _]. by rewrite bool_decide_eq_true_2, orb_true_r.
  - intros Hkeep [Hx _]. by apply Hkeep.
Qed.

Lemma revoke_role_removes_witness :
  ∃ st', revoke_role (as_user 1) 1%N admin classroom = Ok st'
         ∧ has_role (as_user 1) st' admin = false
         ∧ has_role (as_user 4) st' teacher = true.
Proof.
  destruct (revoke_role_removes (as_user 1) 1%N admin classroom)
    as (st' & Hrevoke & Hroles);
    [reflexivity | reflexivity | right; reflexivity |].
  exists st'. split; [exact Hrevoke|].
  rewrite !Hroles. split; reflexivity.
Defined.

(** ** User statistics *)

Lemma length_remove_dups_omap {A} `{EqDecision A} (xs : list (option A))
    (ys : list A) :
  NoDup ys → (∀ z, Some z ∈ xs ↔ z ∈ ys) →
  length (remove_dups (omap id xs)) = length ys.
Proof.
  intros Hnd Hiff.
  apply Permutation_length, NoDup_Permutation;
    [apply NoDup_remove_dups | done |].
  intros z. rewrite elem_of_remove_dups, list_elem_of_omap, <- Hiff.
  split; [by intros ([] & ? & [= ->])|]. intros Hz. by exists (Some z).
Qed.

(** Counting a list by two properties and their complement. *)
Lemma length_by_two {A} (S T U : A → Prop)
    `{!∀ a, Decision (S a), !∀ a, Decision (T a), !∀ a, Decision (U a)}
    (l : list A) :
  (∀ x, S x ↔ ¬ T x ∧ ¬ U x) →
  (length l + length (filter (λ x, T x ∧ U x) l)
   = length (filter S l) + length (filter T l) + length (filter U l))%nat.
Proof.
  intros Hiff. induction l as [|x l IH]; [done|].
  rewrite !filter_cons. specialize (Hiff x).
  destruct (decide (S x)), (decide (T x)), (decide (U x)),
    (decide (T x ∧ U x)); simpl; try lia; tauto.
Qed.

Lemma role_holders_count st r :
  NoDup (au_id <$> auth_users st) →
  constraints_hold st →
  count_distinct_uuid
    ((λ x, Some (sr_user_id x))
       <$> filter (λ x, user_role x = r) (special_roles st))
  = Z.of_nat (length (holders st r)).
Proof.
  intros Hau [_ Hfk _ _]. unfold count_distinct_uuid. f_equal.
  rewrite <- (length_fmap au_id).
  apply length_remove_dups_omap; [by apply NoDup_fmap_filter|].
  intros z. rewrite !list_elem_of_fmap. split.
  - intros (x & [= ->] & [Hr Hx]%list_elem_of_filter).
    destruct (Hfk x Hx) as (v & Hv & Hvid).
    exists v. split; [done|]. apply list_elem_of_filter. split; [|done].
    apply Exists_exists. by exists x.
  - intros (v & -> & [Hex Hv]%list_elem_of_filter).
    apply Exists_exists in Hex as (x & Hx & Hid & Hr).
    exists x. split; [by rewrite Hid|]. by apply list_elem_of_filter.
Qed.

(** X22.  With [id] a key of [auth.users] and the constraints of
    [users.special_roles] holding, the teacher and admin counts of
    [users.stats] are the numbers of users that hold the role, and a user
    who holds both roles is counted under both: the students, teachers
    and administrators add up to the users plus the holders of both
    roles. *)
Theorem stats_counts c st row :
  NoDup (au_id <$> auth_users st) →
  constraints_hold st →
  stats c st = Ok row →
  stats_row.teacher_count row = Z.of_nat (length (holders st teacher))
  ∧ stats_row.admin_count row = Z.of_nat (length (holders st admin))
  ∧ stats_row.student_count row + stats_row.teacher_count row
    + stats_row.admin_count row
    = stats_row.user_count row + Z.of_nat (length (holders_of_both st)).
Proof.
  intros Hau Hwf. unfold stats. case_match; [done|]. intros [= <-]. simpl.
  rewrite !role_holders_count by done. split; [done|]. split; [done|].
  pose proof (length_by_two
    (λ au, sql_exists (λ sr, sr_user_id sr = au_id au) (special_roles st)
           = false)
    (λ au, Exists (λ sr, sr_user_id sr = au_id au ∧ user_role sr = teacher)
             (special_roles st))
    (λ au, Exists (λ sr, sr_user_id sr = au_id au ∧ user_role sr = admin)
             (special_roles st))
    (auth_users st)) as Hcount.
  unfold holders, holders_of_both. rewrite <- !Nat2Z.inj_add.
  f_equal. symmetry. apply Hcount. intros au.
  rewrite sql_exists_false, !Exists_exists. split.
  - intros Hnone. split; intros (x & Hx & Hid & _); by apply (Hnone x).
  - intros [Hnt Hna] x Hx Hid. destruct (user_role x) eqn:Hr.
    + apply Hna. by exists x.
    + apply Hnt. by exists x.
Qed.

Lemma stats_counts_witness :
  ∃ row,
    stats (as_user 1)
      (commit (grant_role (as_user 1) 7 1%N teacher classroom) classroom)
    = Ok row
    ∧ stats_row.user_count row = 4
    ∧ stats_row.student_count row = 2
    ∧ stats_row.teacher_count row = 2
    ∧ stats_row.admin_count row = 1
    ∧ stats_row.student_count row + stats_row.teacher_count row
      + stats_row.admin_count row
      = stats_row.user_count row + 1.
Proof.
  set (st' := commit (grant_role (as_user 1) 7 1%N teacher classroom)
                classroom).
  assert (Hau : NoDup (au_id <$> auth_users st')).
  { apply (bool_decide_unpack _). vm_compute. exact I. }
  assert (Hwf : constraints_hold st').
  { split.
    - apply (bool_decide_unpack _). vm_compute. exact I.
    - intros r Hr. apply Exists_exists. revert r Hr. apply Forall_forall.
      apply (bool_decide_unpack _). vm_compute. exact I.
    - apply (bool_decide_unpack _). vm_compute. exact I.
    - intros b Hb. apply Exists_exists. revert b Hb. apply Forall_forall.
      apply (bool_decide_unpack _). vm_compute. exact I. }
  destruct (stats (as_user 1) st') as [row|e] eqn:Hstats;
    [|vm_compute in Hstats; discriminate].
  exists row. split; [reflexivity|].
  destruct (stats_counts (as_user 1) st' row Hau Hwf Hstats)
    as (_ & _ & Hsum).
  vm_compute in Hstats. injection Hstats as <-.
  repeat (split; [reflexivity|]). exact Hsum.
Defined.

(** ** One row for every budget row, user and depot *)

Lemma remove_dups_const_app {K} `{EqDecision K} (k : K) (xs ys : list K) :
  xs ≠ [] → (∀ x, x ∈ xs → x = k) → k ∉ ys →
  remove_dups (xs ++ ys) = k :: remove_dups ys.
Proof.
  intros Hne Hconst Hfresh. induction xs as [|x xs IH]; [done|].
  assert (x = k) as -> by (apply Hconst; left).
  destruct xs as [|x' xs].
  - simpl. by destruct (decide_rel elem_of k ys).
  - assert (x' = k) as -> by (apply Hconst; right; left).
    simpl. destruct (decide_rel elem_of k (k :: xs ++ ys)) as [_|Hn];
      [|destruct Hn; left].
    apply IH; [done|]. intros x Hx. apply Hconst. by right.
Qed.

(** The keys of the groups of a join, when the key of a joined row is
    that of its left row and no two left rows share a key: the keys of
    the left rows, in their order. *)
Lemma remove_dups_bind_keys {A B K} `{EqDecision K} (h : A → K)
    (key : B → K) (f : A → list B) (l : list A) :
  NoDup (h <$> l) →
  (∀ a x, x ∈ f a → key x = h a) →
  (∀ a, f a ≠ []) →
  remove_dups (key <$> (l ≫= f)) = h <$> l.
Proof.
  intros Hnd Hkey Hne. induction l as [|a l IH]; [done|].
  rewrite fmap_cons in Hnd. apply NoDup_cons in Hnd as [Hfresh Hnd].
  rewrite bind_cons, fmap_app, fmap_cons.
  rewrite (remove_dups_const_app (h a)).
  - by rewrite IH.
  - intros Hnil. apply fmap_nil_inv in Hnil. by apply (Hne a).
  - intros k (x & -> & Hx)%list_elem_of_fmap. by apply Hkey.
  - intros (x & Hk & (a' & Hx & Ha')%list_elem_of_bind)%list_elem_of_fmap.
    apply Hfresh. rewrite Hk, (Hkey a' x Hx). by apply list_elem_of_fmap_2.
Qed.

(** X23.  With [depot_id] the key of [depots.savings_plans_budget], the
    savings-plan budget overview has exactly one row for every budget
    row, with its three columns, whether the depot has savings plans or
    not; a depot without a budget row has no row in the overview.  The
    order of the rows is not part of the statement: the view has no
    [ORDER BY]. *)
Theorem budget_overview_one_row_per_budget st :
  NoDup (b_depot_id <$> savings_plans_budget st) →
  (λ r, (budget_overview.budget r, budget_overview.depot_id r,
         budget_overview.last_changed r))
    <$> savings_plans_budget_overview st
  ≡ₚ (λ b, (budget b, b_depot_id b, last_changed b))
       <$> savings_plans_budget st.
Proof.
  intros Hnd. unfold savings_plans_budget_overview, group_by.
  rewrite <- !list_fmap_compose.
  unfold budget_from, left_join.
  rewrite (remove_dups_bind_keys
             (λ b, (budget b, b_depot_id b, last_changed b))).
  - rewrite <- list_fmap_compose.
    erewrite list_fmap_ext; [reflexivity|]. by intros i b _.
  - apply (NoDup_fmap_1 (λ k, k.1.2)). by rewrite <- list_fmap_compose.
  - intros b x Hx. case_match.
    + by apply list_elem_of_singleton in Hx as ->.
    + by apply list_elem_of_fmap in Hx as (? & -> & _).
  - intros b. by case_match.
Qed.

Lemma budget_overview_one_row_per_budget_witness :
  (λ r, (budget_overview.budget r, budget_overview.depot_id r,
         budget_overview.last_changed r))
    <$> savings_plans_budget_overview classroom
  ≡ₚ [(250, 2, 0); (250, 1, 0)].
Proof.
  rewrite (budget_overview_one_row_per_budget classroom).
  - apply perm_swap.
  - apply (bool_decide_unpack _). vm_compute. exact I.
Defined.

Lemma omap_select_fmap {K G Row C} (sel : G → option Row) (mk : K → G)
    (col : Row → C) (colk : K → C) (ks : list K) :
  (∀ k, k ∈ ks → ∃ row, sel (mk k) = Some row ∧ col row = colk k) →
  col <$> omap sel (mk <$> ks) = colk <$> ks.
Proof.
  induction ks as [|k ks IH]; intros Hsel; [done|].
  destruct (Hsel k) as (row & Hrow & Hcol); [left|].
  rewrite !fmap_cons. simpl. rewrite Hrow. simpl. rewrite Hcol. f_equal.
  apply IH. intros k' Hk'. apply Hsel. by right.
Qed.

(** X24.  With [id] the key of [auth.users], the admin overview has exactly
    one row for every user, and the columns of the row are those of the
    user: e-mail, creation time, metadata and name, ban, and the roles
    with their grant times. *)
Theorem admin_overview_one_row_per_user c st rows :
  NoDup (au_id <$> auth_users st) →
  get_admin_overview c st = Ok rows →
  admin_overview.id <$> rows ≡ₚ au_id <$> auth_users st
  ∧ Forall
      (λ row, ∃ au,
         au ∈ auth_users st
         ∧ admin_overview.id row = au_id au
         ∧ admin_overview.email row = email au
         ∧ admin_overview.created_at row = au_created_at au
         ∧ admin_overview.meta_data row = raw_user_meta_data au
         ∧ admin_overview.user_name row = raw_user_meta_data au !! "name"
         ∧ admin_overview.banned_until row = banned_until au
         ∧ (admin_overview.user_roles row, admin_overview.role_granted_at row)
           = roles st au)
      rows.
Proof.
  intros Hau. unfold get_admin_overview. case_match; [done|]. intros [= <-].
  split.
  - unfold group_by.
    rewrite (omap_select_fmap admin_select _ admin_overview.id
               (λ k, k.1.1.1.1.1)).
    + apply NoDup_Permutation.
      * apply NoDup_fmap_2_strong; [|apply NoDup_remove_dups].
        intros k1 k2
          (x1 & -> & Hx1)%elem_of_remove_dups%list_elem_of_fmap
          (x2 & -> & Hx2)%elem_of_remove_dups%list_elem_of_fmap Hid.
        apply (admin_group_same_user st Hau x2 x1 Hx2 Hx1).
        pose proof Hx1 as (Hu1 & _)%elem_of_admin_from.
        pose proof Hx2 as (Hu2 & _)%elem_of_admin_from.
        by apply (key_determines_row au_id (auth_users st)).
      * done.
      * intros i. rewrite !list_elem_of_fmap. split.
        -- intros (k & -> & (x & -> & Hx)%elem_of_remove_dups%list_elem_of_fmap).
           apply elem_of_admin_from in Hx as (Hu & _). by exists (af_au x).
        -- intros (au & -> & Hin).
           destruct (partner_total (λ d, au_id au ∈ d_users d) (depots st))
             as [od Hod].
           destruct (partner_total
                       (λ p, d_id <$> od = Some (p_depot_id p)) (positions st))
             as [op Hop].
           destruct (partner_total
                       (λ t, d_id <$> od = Some (t_depot_id t))
                       (transactions st)) as [ot Hot].
           exists (admin_group_key (au, roles st au, od, op, ot)).
           split; [done|]. apply elem_of_remove_dups, list_elem_of_fmap.
           eexists. split; [done|]. by apply elem_of_admin_from.
    + intros k (x & -> & Hx)%elem_of_remove_dups%list_elem_of_fmap.
      assert (Hg : (admin_group_key x,
                    filter (λ y, admin_group_key y = admin_group_key x)
                      (admin_from st))
                   ∈ group_by admin_group_key (admin_from st)).
      { apply elem_of_group_by. split; [|done]. by exists x. }
      destruct (group_by_head _ _ _ _ Hg) as (x' & Hhead & _).
      unfold admin_select. simpl. rewrite Hhead. by eexists.
  - apply Forall_forall. intros row (x0 & Hx0 & Hsel)%elem_of_admin_rows.
    unfold admin_select in Hsel. simpl in Hsel.
    destruct (head _) as [x'|] eqn:Hhead; [|done]. injection Hsel as <-.
    apply head_Some_elem_of, list_elem_of_filter in Hhead as [Hk Hx'].
    apply (admin_group_same_user st Hau x0 x' Hx0 Hx') in Hk.
    pose proof Hx0 as (Hu & Hr & _)%elem_of_admin_from.
    exists (af_au x0). simpl. rewrite Hk, <- Hr. repeat split; try done.
    by destruct (af_roles x0).
Qed.

Lemma admin_overview_one_row_per_user_witness :
  ∃ rows,
    get_admin_overview (as_user 4) classroom = Ok rows
    ∧ admin_overview.id <$> rows ≡ₚ [1%N; 2%N; 3%N; 4%N].
Proof.
  eexists. split; [reflexivity|].
  apply (admin_overview_one_row_per_user (as_user 4) classroom);
    [|reflexivity].
  apply (bool_decide_unpack _). vm_compute. exact I.
Defined.

(** With [depot_id] its key, the budget row joined to a depot is the
    budget row of the depot. *)
Lemma depot_from_budget_row st x :
  NoDup (b_depot_id <$> savings_plans_budget st) →
  x ∈ depot_from st →
  df_dsb x
  = head (filter (λ b, b_depot_id b = d_id (df_d x))
            (savings_plans_budget st)).
Proof.
  intros Hnd (_ & _ & _ & _ & Hb)%elem_of_depot_from.
  destruct (df_dsb x) as [b|].
  - destruct Hb as [Hin Hid].
    pose proof (filter_key_length b_depot_id (d_id (df_d x)) _ Hnd) as Hlen.
    assert (Hf : b ∈ filter (λ b, b_depot_id b = d_id (df_d x))
                   (savings_plans_budget st))
      by by apply list_elem_of_filter.
    destruct (filter _ (savings_plans_budget st)) as [|b0 [|b1 l]];
      [by apply elem_of_nil in Hf | | simpl in Hlen; lia].
    by apply list_elem_of_singleton in Hf as ->.
  - by rewrite filter_none.
Qed.

Lemma depot_group_key_of_depot st x :
  NoDup (b_depot_id <$> savings_plans_budget st) →
  x ∈ depot_from st →
  depot_group_key x
  = (d_id (df_d x), (members st (df_d x)).1, (members st (df_d x)).2,
     budget_of st (d_id (df_d x))).
Proof.
  intros Hnd Hx. unfold depot_group_key, budget_of.
  rewrite (depot_from_budget_row st x Hnd Hx).
  apply elem_of_depot_from in Hx as (_ & _ & _ & -> & _). done.
Qed.

(** X25.  With [id] the key of [depots.depots] and [depot_id] the key of
    [depots.savings_plans_budget], the depot overview has exactly one row
    for every depot, and the columns of the row are those of the depot:
    cash, cash at the start, the members, the names and ids of the
    members that have a profile, and the monthly budget, [NULL] for a
    depot without a budget row. *)
Theorem depot_overview_one_row_per_depot c st rows :
  NoDup (d_id <$> depots st) →
  NoDup (b_depot_id <$> savings_plans_budget st) →
  get_depot_overview c st = Ok rows →
  depot_overview.id <$> rows ≡ₚ d_id <$> depots st
  ∧ Forall
      (λ row, ∃ d,
         d ∈ depots st
         ∧ depot_overview.id row = d_id d
         ∧ depot_overview.cash row = cash d
         ∧ depot_overview.cash_start row = cash_start d
         ∧ depot_overview.all_ids row = d_users d
         ∧ (depot_overview.user_names row, depot_overview.user_ids row)
           = members st d
         ∧ depot_overview.monthly_budget row = budget_of st (d_id d))
      rows.
Proof.
  intros Hd Hb. unfold get_depot_overview. case_match; [done|].
  intros [= <-]. split.
  - unfold group_by.
    rewrite (omap_select_fmap depot_select _ depot_overview.id
               (λ k, k.1.1.1)).
    + apply NoDup_Permutation.
      * apply NoDup_fmap_2_strong; [|apply NoDup_remove_dups].
        intros k1 k2
          (x1 & -> & Hx1)%elem_of_remove_dups%list_elem_of_fmap
          (x2 & -> & Hx2)%elem_of_remove_dups%list_elem_of_fmap Hid.
        rewrite !(depot_group_key_of_depot st) by done.
        pose proof Hx1 as (Hd1 & _)%elem_of_depot_from.
        pose proof Hx2 as (Hd2 & _)%elem_of_depot_from.
        by rewrite (key_determines_row d_id (depots st) _ _ Hd Hd1 Hd2 Hid).
      * done.
      * intros i. rewrite !list_elem_of_fmap. split.
        -- intros (k & -> & (x & -> & Hx)%elem_of_remove_dups%list_elem_of_fmap).
           apply elem_of_depot_from in Hx as (Hin & _). by exists (df_d x).
        -- intros (d & -> & Hin).
           destruct (partner_total (λ t, t_depot_id t = d_id d)
                       (transactions st)) as [odt Hodt].
           destruct (partner_total (λ p, p_depot_id p = d_id d)
                       (positions st)) as [odp Hodp].
           destruct (partner_total (λ b, b_depot_id b = d_id d)
                       (savings_plans_budget st)) as [odsb Hodsb].
           exists (depot_group_key (d, odt, odp, members st d, odsb)).
           split; [done|]. apply elem_of_remove_dups, list_elem_of_fmap.
           eexists. split; [done|]. by apply elem_of_depot_from.
    + intros k (x & -> & Hx)%elem_of_remove_dups%list_elem_of_fmap.
      assert (Hg : (depot_group_key x,
                    filter (λ y, depot_group_key y = depot_group_key x)
                      (depot_from st))
                   ∈ group_by depot_group_key (depot_from st)).
      { apply elem_of_group_by. split; [|done]. by exists x. }
      destruct (group_by_head _ _ _ _ Hg) as (x' & Hhead & _).
      unfold depot_select. simpl. rewrite Hhead. by eexists.
  - apply Forall_forall. intros row (x0 & Hx0 & Hsel)%elem_of_depot_rows.
    unfold depot_select in Hsel. simpl in Hsel.
    destruct (head _) as [x'|] eqn:Hhead; [|done]. injection Hsel as <-.
    apply head_Some_elem_of, list_elem_of_filter in Hhead as [Hk Hx'].
    apply (depot_group_same_depot st Hd x0 x' Hx0 Hx') in Hk.
    pose proof Hx0 as (Hin & _ & _ & Hu & _)%elem_of_depot_from.
    exists (df_d x0). simpl. rewrite Hk, <- Hu.
    rewrite (depot_from_budget_row st x0 Hb Hx0).
    repeat split; try done. by destruct (df_u x0).
Qed.

Lemma depot_overview_one_row_per_depot_witness :
  ∃ rows,
    get_depot_overview (as_user 4) classroom = Ok rows
    ∧ depot_overview.id <$> rows ≡ₚ [1; 2].
Proof.
  eexists. split; [reflexivity|].
  apply (depot_overview_one_row_per_depot (as_user 4) classroom);
    [| |reflexivity]; apply (bool_decide_unpack _); vm_compute; exact I.
Defined.

(** ** The aggregated columns of the overviews *)

Lemma by_user_id_total : Total by_user_id.
Proof. intros a b. unfold by_user_id. lia. Qed.

Lemma by_granted_at_total : Total by_granted_at.
Proof. intros a b. unfold by_granted_at. lia. Qed.

Lemma array_agg_fmap {A B} (f : A → B) (l : list A) :
  array_agg (f <$> l) = if decide (l = []) then None else Some (f <$> l).
Proof. by destruct l. Qed.

(** X26.  The member columns of the depot overview: [user_names] and
    [user_ids] are both [NULL], when no member of the depot has a row in
    [auth.users], or both arrays of one length; the ids are in ascending
    order and are the members that have such a row, and the name at a
    position is the name of the user whose id is at that position. *)
Theorem members_columns st d :
  match members st d with
  | (Some names, Some ids) =>
      length names = length ids
      ∧ Sorted N.le ids
      ∧ (∀ i, i ∈ ids ↔ i ∈ d_users d ∧ i ∈ au_id <$> auth_users st)
      ∧ (∀ k name i, names !! k = Some name → ids !! k = Some i →
           ∃ au, au ∈ auth_users st ∧ au_id au = i
                 ∧ raw_user_meta_data au !! "name" = name)
  | (None, None) => ∀ i, i ∈ d_users d → i ∉ au_id <$> auth_users st
  | _ => False
  end.
Proof.
  unfold members.
  set (ups := merge_sort by_user_id
                (filter (λ up, pr_user_id up ∈ d_users d) (profile st))).
  assert (Hperm : ups ≡ₚ filter (λ up, pr_user_id up ∈ d_users d) (profile st))
    by apply merge_sort_Permutation.
  assert (Hmem : ∀ up, up ∈ ups ↔
                   pr_user_id up ∈ d_users d
                   ∧ ∃ au, au ∈ auth_users st ∧ au_id au = pr_user_id up
                           ∧ raw_user_meta_data au !! "name" = pr_name up
                           ∧ au_created_at au = pr_created_at up).
  { intros up. rewrite Hperm, list_elem_of_filter.
    unfold profile, get_all_profiles. rewrite list_elem_of_fmap. split.
    - intros [Hin (au & -> & Hau)]. split; [done|]. by exists au.
    - intros [Hin (au & Hau & Hid & Hname & Hcreated)]. split; [done|].
      exists au. split; [|done]. destruct up. simpl in *. by subst. }
  rewrite !array_agg_fmap. destruct (decide (ups = [])) as [Hnil|Hne].
  - intros i Hi (au & -> & Hau)%list_elem_of_fmap.
    assert (Hin : {| pr_user_id := au_id au;
                     pr_name := raw_user_meta_data au !! "name";
                     pr_created_at := au_created_at au |} ∈ ups).
    { apply Hmem. split; [done|]. by exists au. }
    rewrite Hnil in Hin. by apply elem_of_nil in Hin.
  - split; [by rewrite !length_fmap|]. split; [|split].
    + apply (Sorted_fmap _ by_user_id); [done|].
      apply (Sorted_merge_sort by_user_id (Total0 := by_user_id_total)).
    + intros i. rewrite !list_elem_of_fmap. split.
      * intros (up & -> & [Hin (au & Hau & Hid & _)]%Hmem).
        split; [done|]. by exists au.
      * intros [Hin (au & -> & Hau)].
        exists {| pr_user_id := au_id au;
                  pr_name := raw_user_meta_data au !! "name";
                  pr_created_at := au_created_at au |}.
        split; [done|]. apply Hmem. split; [done|]. by exists au.
    + intros k name i. rewrite !list_lookup_fmap.
      destruct (ups !! k) as [up|] eqn:Hk; [|done]. simpl.
      intros [= <-] [= <-].
      apply list_elem_of_lookup_2, Hmem in Hk as [_ (au & ? & ? & ? & _)].
      by exists au.
Qed.

(** X27.  The role columns of the admin overview: [user_roles] and
    [role_granted_at] are both [NULL], for a user without a role, or both
    arrays of one length; the grant times are in ascending order, and the
    roles listed are the roles for which [has_role] answers true for the
    user. *)
Theorem roles_columns st au c :
  auth_uid c = Some (au_id au) →
  match roles st au with
  | (Some rs, Some ts) =>
      length rs = length ts
      ∧ Sorted Z.le ts
      ∧ (∀ r, r ∈ rs ↔ has_role c st r = true)
  | (None, None) => ∀ r, has_role c st r = false
  | _ => False
  end.
Proof.
  intros Huid. unfold roles.
  set (us := merge_sort by_granted_at
               (filter (λ us, sr_user_id us = au_id au) (special_roles st))).
  assert (Hmem : ∀ r, r ∈ user_role <$> us ↔ has_role c st r = true).
  { intros r. unfold us, has_role.
    rewrite merge_sort_Permutation, Huid, sql_exists_true, list_elem_of_fmap.
    split.
    - intros (x & -> & [Hid Hx]%list_elem_of_filter). by exists x.
    - intros (x & Hx & Hid & <-). exists x. split; [done|].
      by apply list_elem_of_filter. }
  rewrite !array_agg_fmap. destruct (decide (us = [])) as [Hnil|Hne].
  - intros r. apply not_true_is_false. rewrite <- Hmem, Hnil.
    apply not_elem_of_nil.
  - split; [by rewrite !length_fmap|]. split; [|done].
    apply (Sorted_fmap _ by_granted_at); [done|].
    apply (Sorted_merge_sort by_granted_at (Total0 := by_granted_at_total)).
Qed.

Lemma roles_columns_witness :
  roles
    (commit (grant_role (as_user 1) 3 1%N teacher classroom) classroom)
    (pupil 1 "ada")
  = (Some [teacher; admin], Some [3; 5])
  ∧ match
      roles
        (commit (grant_role (as_user 1) 3 1%N teacher classroom) classroom)
        (pupil 1 "ada")
    with
    | (Some rs, Some ts) =>
        length rs = length ts
        ∧ Sorted Z.le ts
        ∧ (∀ r, r ∈ rs
                ↔ has_role (as_user 1)
                    (commit (grant_role (as_user 1) 3 1%N teacher classroom)
                       classroom) r = true)
    | (None, None) =>
        ∀ r, has_role (as_user 1)
               (commit (grant_role (as_user 1) 3 1%N teacher classroom)
                  classroom) r = false
    | _ => False
    end.
Proof.
  split; [reflexivity|].
  apply (roles_columns
           (commit (grant_role (as_user 1) 3 1%N teacher classroom) classroom)
           (pupil 1 "ada") (as_user 1)).
  reflexivity.
Defined.

(** ** Later calls *)

Lemma exec_special_roles k st st' :
  exec k st = Ok st' →
  owner st' = owner st
  ∧ match k with
    | GrantTeacher _ now u =>
        special_roles st'
        = special_roles st
          ++ [ {| sr_user_id := u; user_role := teacher; granted_at := now |} ]
    | RevokeTeacher _ u =>
        special_roles st'
        = sql_delete (λ r, sr_user_id r = u ∧ user_role r = teacher)
            (special_roles st)
    | _ => special_roles st' = special_roles st
    end.
Proof.
  destruct k as [c now u | c u | c now i a | c i a]; simpl.
  - by intros (_ & _ & _ & ->)%grant_teacher_Ok.
  - by intros (_ & ->)%revoke_teacher_Ok.
  - by intros (_ & _ & [(_ & ->) | (_ & _ & ->)])%change_budget_Ok.
  - by intros (_ & _ & _ & ->)%grant_reward_Ok.
Qed.

(** A teacher role row stays through every call that is not a
    [revoke_teacher] for its user. *)
Lemma teacher_row_stays ks st u :
  Forall (λ k, ¬ is_revoke_of u k) ks →
  (∃ x, x ∈ special_roles st ∧ sr_user_id x = u ∧ user_role x = teacher) →
  ∃ x, x ∈ special_roles (run ks st) ∧ sr_user_id x = u
       ∧ user_role x = teacher.
Proof.
  revert st. induction ks as [|k ks IH]; intros st Hks Hrow; [done|].
  apply Forall_cons in Hks as [Hk Hks].
  change (run (k :: ks) st) with (run ks (commit (exec k st) st)).
  apply IH; [done|].
  destruct (exec k st) as [st'|e] eqn:Hexec; [simpl|done].
  destruct Hrow as (x & Hx & Hu & Hr). exists x. split; [|done].
  apply exec_special_roles in Hexec as [_ Hroles].
  destruct k as [c now v | c v | c now i a | c i a]; rewrite Hroles.
  - apply elem_of_app. by left.
  - unfold sql_delete. apply list_elem_of_filter. split; [|done].
    intros [Hv _]. apply Hk. simpl. congruence.
  - done.
  - done.
Qed.

(** X8.  [grant_teacher] for a user who holds the teacher role fails on
    the primary key of [users.special_roles], for every caller that
    passes the guard.  So [grant_teacher] cannot be repeated: after it
    succeeded for a user, and after any further calls among which there
    is no [revoke_teacher] for that user, every call of it for that user
    that passes the guard fails. *)
Theorem grant_teacher_twice_fails c now u st st1 ks c' now' :
  grant_teacher c now u st = Ok st1 →
  Forall (λ k, ¬ is_revoke_of u k) ks →
  has_any_role c' (run ks st1) [admin; teacher]
  || is_postgres Definer c' (run ks st1) = true →
  grant_teacher c' now' u (run ks st1) = Err UniqueViolation.
Proof.
  intros (_ & _ & _ & ->)%grant_teacher_Ok Hks Hguard.
  unfold grant_teacher. rewrite Hguard. simpl.
  unfold insert_special_role.
  assert (Hdup : sql_exists
            (λ r, sr_user_id r = u ∧ user_role r = teacher)
            (special_roles
               (run ks
                  (set_auth_users
                     (sql_update (λ _, True) (set_is_super_admin true))
                     (set_special_roles
                        (λ t, t ++ [ {| sr_user_id := u; user_role := teacher;
                                        granted_at := now |} ]) st))))
            = true).
  { apply sql_exists_true, teacher_row_stays; [done|].
    eexists. simpl. split; [apply elem_of_app; right; left|done]. }
  by rewrite Hdup.
Qed.

Lemma grant_teacher_twice_fails_witness :
  ∃ st1,
    grant_teacher (as_user 1) 7 2%N classroom = Ok st1
    ∧ grant_teacher (as_user 2) 8 2%N st1 = Err UniqueViolation
    ∧ grant_teacher (as_user 1) 9 2%N
        (run [RevokeTeacher (as_user 1) 4%N;
              GrantReward (as_user 2) 1 50;
              GrantTeacher (as_user 2) 8 3%N] st1)
      = Err UniqueViolation.
Proof.
  eexists. split; [reflexivity|]. split.
  - apply (grant_teacher_twice_fails (as_user 1) 7 2%N classroom _ []);
      [reflexivity | constructor | reflexivity].
  - apply (grant_teacher_twice_fails (as_user 1) 7 2%N classroom);
      [reflexivity | | reflexivity].
    repeat constructor; simpl; try tauto. discriminate.
Defined.

(** A caller who holds no role, where the guard's
    [current_user = 'postgres'] is false, changes no role by calls of
    their own. *)
Lemma own_calls_keep_roles c ks :
  ∀ st,
    (∀ r, has_role c st r = false) →
    owner st ≠ "postgres" →
    Forall (λ k, caller k = c) ks →
    special_roles (run ks st) = special_roles st
    ∧ owner (run ks st) = owner st.
Proof.
  induction ks as [|k ks IH]; intros st Hnone Howner Hks; [done|].
  apply Forall_cons in Hks as [Hk Hks].
  change (run (k :: ks) st) with (run ks (commit (exec k st) st)).
  assert (Hstep : special_roles (commit (exec k st) st) = special_roles st
                  ∧ owner (commit (exec k st) st) = owner st).
  { destruct (exec k st) as [st'|e] eqn:Hexec; [simpl|done].
    destruct k as [c0 now v | c0 v | c0 now i a | c0 i a];
      simpl in Hk; subst c0.
    - simpl in Hexec. unfold grant_teacher in Hexec.
      rewrite has_any_role_none, is_postgres_false in Hexec by done. done.
    - simpl in Hexec. unfold revoke_teacher in Hexec.
      rewrite has_any_role_none, is_postgres_false in Hexec by done. done.
    - by apply exec_special_roles in Hexec as [-> ->].
    - by apply exec_special_roles in Hexec as [-> ->]. }
  destruct Hstep as [Hroles Hown].
  destruct (IH (commit (exec k st) st)) as [-> ->]; [| |done|done].
  - intros r. by rewrite (has_role_ext c st).
  - by rewrite Hown.
Qed.

(** X11.  A teacher who is no administrator and revokes the teacher role
    of their own account holds no role afterwards, and no call of their
    own gives it back: where the guard's [current_user = 'postgres'] is
    false, after every sequence of calls made in their own session the
    role table is as the revocation left it and they are refused by
    [grant_teacher] and [revoke_teacher].  Only another caller can give
    the role back. *)
Theorem revoke_own_teacher_role_locks_out c u st st' ks :
  auth_uid c = Some u →
  has_role c st admin = false →
  current_user Definer c st ≠ "postgres" →
  revoke_teacher c u st = Ok st' →
  Forall (λ k, caller k = c) ks →
  special_roles (run ks st') = special_roles st'
  ∧ (∀ r, has_role c (run ks st') r = false)
  ∧ (∀ now v, grant_teacher c now v (run ks st') = Err Unauthorized)
  ∧ (∀ v, revoke_teacher c v (run ks st') = Err Unauthorized).
Proof.
  intros Huid Hadmin Hpg (_ & ->)%revoke_teacher_Ok Hks.
  set (st' := set_auth_users _ _).
  assert (Hnone : ∀ r, has_role c st' r = false).
  { intros r.
    rewrite (has_role_ext c
               (set_special_roles
                  (sql_delete (λ x, sr_user_id x = u ∧ user_role x = teacher))
                  st)) by done.
    rewrite has_role_delete. destruct r.
    - by rewrite Hadmin, andb_false_r.
    - by rewrite bool_decide_eq_true_2. }
  destruct (own_calls_keep_roles c ks st' Hnone Hpg Hks) as [Hroles Hown].
  assert (Hnone' : ∀ r, has_role c (run ks st') r = false).
  { intros r. by rewrite (has_role_ext c st'). }
  assert (Hany : has_any_role c (run ks st') [admin; teacher] = false)
    by by apply has_any_role_none.
  assert (Hpg' : is_postgres Definer c (run ks st') = false).
  { apply is_postgres_false. simpl. by rewrite Hown. }
  split; [done|]. split; [done|].
  split; intros; unfold grant_teacher, revoke_teacher;
    by rewrite Hany, Hpg'.
Qed.

Lemma revoke_own_teacher_role_locks_out_witness :
  ∃ st',
    revoke_teacher (as_user 4) 4%N classroom = Ok st'
    ∧ grant_teacher (as_user 4) 8 4%N
        (run [GrantTeacher (as_user 4) 7 4%N;
              ChangeBudget (as_user 4) 7 1 80;
              GrantReward (as_user 4) 1 50] st')
      = Err Unauthorized.
Proof.
  eexists. split; [reflexivity|].
  apply (revoke_own_teacher_role_locks_out (as_user 4) 4%N classroom);
    [reflexivity | reflexivity | vm_compute; discriminate | reflexivity |].
  repeat constructor.
Defined.
